(** * ppgan.datasets.base_dataset: directory scanner and dataset base class

    A shallow embedding of [src/ppgan/datasets/base_dataset.py]:

    - [scandir] / [_scandir]: the lazy, optionally recursive directory
      scanner, as the trace of events its generator produces;
    - [scan_folder]: the eager image-file listing built on it;
    - [BaseDataset]: the optional load / transform pipelines and the
      per-index access [__getitem__].

    Python objects that the code inspects dynamically ([isinstance],
    truthiness, [hasattr]) are modelled by small inductive types; the
    [os.path] functions the scanner calls are transcribed from CPython's
    [posixpath] on strings. *)

From Stdlib Require Import String Ascii List ZArith Lia Bool Permutation.
Import ListNotations.
Open Scope string_scope.

Set Warnings "-register-all".

(* ================================================================= *)
(** ** Python values, exceptions and results *)

(** The exceptions the module can raise or let through. *)
Inductive exn : Type :=
| TypeError
| ValueError
| IndexError
| AttributeError
| AssertionError
| FileNotFoundError
| NotADirectoryError
| PermissionError.

(** A call either returns a value or raises. *)
Inductive Res (A : Type) : Type :=
| Ok (a : A)
| Raise (e : exn).
Arguments Ok {A} a.
Arguments Raise {A} e.

Definition bind {A B : Type} (r : Res A) (k : A -> Res B) : Res B :=
  match r with
  | Ok a => k a
  | Raise e => Raise e
  end.

Notation "x <- r ;; k" := (bind r (fun x => k))
  (at level 61, r at next level, right associativity).

(** The dynamically typed arguments of [scandir] and [scan_folder]:
    enough of Python's value universe to exercise every [isinstance]
    branch. [PPath s] is a [pathlib.Path] whose [str()] is [s]. *)
Inductive pyval : Type :=
| PNone
| PBool (b : bool)
| PInt (z : Z)
| PStr (s : string)
| PPath (s : string)
| PTuple (items : list pyval)
| PList (items : list pyval)
| PSet (items : list pyval).

(** [isinstance(v, str)] *)
Definition is_str (v : pyval) : bool :=
  match v with
  | PStr _ => true
  | _ => false
  end.

(** [isinstance(v, (str, Path))] *)
Definition is_str_or_Path (v : pyval) : bool :=
  match v with
  | PStr _ | PPath _ => true
  | _ => false
  end.

(** [isinstance(v, (str, tuple))] *)
Definition is_str_or_tuple (v : pyval) : bool :=
  match v with
  | PStr _ | PTuple _ => true
  | _ => false
  end.

(** [v is None] *)
Definition is_None (v : pyval) : bool :=
  match v with
  | PNone => true
  | _ => false
  end.

(* ================================================================= *)
(** ** Strings *)

Definition slash : ascii := "/"%char.

(** [s.startswith(p)] *)
Fixpoint startswith (s p : string) {struct p} : bool :=
  match p with
  | "" => true
  | String b p' =>
      match s with
      | "" => false
      | String a s' => Ascii.eqb a b && startswith s' p'
      end
  end.

(** [s.endswith(p)] for a string [p]: [p] is [s] or ends its tail. *)
Fixpoint endswith (s p : string) : bool :=
  (s =? p)
  || match s with
     | "" => false
     | String _ s' => endswith s' p
     end.

(** [s.endswith(suffix)] for a Python argument: a string, or a tuple
    tried left to right, where an element that is not a string raises
    unless an earlier element already matched. *)
Fixpoint endswith_any (s : string) (items : list pyval) : Res bool :=
  match items with
  | [] => Ok false
  | PStr p :: rest => if endswith s p then Ok true else endswith_any s rest
  | _ :: _ => Raise TypeError
  end.

Definition str_endswith (s : string) (suffix : pyval) : Res bool :=
  match suffix with
  | PStr p => Ok (endswith s p)
  | PTuple items => endswith_any s items
  | _ => Raise TypeError
  end.

(** [s.split('/')] *)
Fixpoint split_sep (s : string) : list string :=
  match s with
  | "" => [""]
  | String c s' =>
      if Ascii.eqb c slash then "" :: split_sep s'
      else match split_sep s' with
           | [] => [String c ""]
           | h :: t => String c h :: t
           end
  end.

(** ['/' in s] *)
Fixpoint has_sep (s : string) : bool :=
  match s with
  | "" => false
  | String c s' => Ascii.eqb c slash || has_sep s'
  end.

Definition nonempty (s : string) : bool := negb (s =? "").

(** [[x for x in s.split('/') if x]] *)
Definition components (s : string) : list string :=
  filter nonempty (split_sep s).

(* ================================================================= *)
(** ** posixpath *)

(** [os.path.join(a, b)] *)
Definition os_path_join (a b : string) : string :=
  if startswith b "/" then b
  else if (a =? "") || endswith a "/" then a ++ b
  else a ++ "/" ++ b.

(** [os.path.join(a, *p)] *)
Definition os_path_join_all (a : string) (p : list string) : string :=
  fold_left os_path_join p a.

Definition initial_slashes (path : string) : nat :=
  if startswith path "/" then
    if startswith path "//" && negb (startswith path "///") then 2 else 1
  else 0.

Definition last_is_dotdot (comps : list string) : bool :=
  match rev comps with
  | [] => false
  | c :: _ => c =? ".."
  end.

(** One turn of the loop of [normpath] over the split components. *)
Definition normpath_step (slashes : nat) (new_comps : list string)
    (comp : string) : list string :=
  if (comp =? "") || (comp =? ".") then new_comps
  else if negb (comp =? "..")
          || ((slashes =? 0)%nat && (length new_comps =? 0)%nat)
          || last_is_dotdot new_comps
       then new_comps ++ [comp]
       else removelast new_comps.

Definition normpath_comps (path : string) : list string :=
  fold_left (normpath_step (initial_slashes path)) (split_sep path) [].

Fixpoint slashes_str (n : nat) : string :=
  match n with
  | O => ""
  | S k => String slash (slashes_str k)
  end.

(** [os.path.normpath(path)] *)
Definition normpath (path : string) : string :=
  if path =? "" then "."
  else
    let p := slashes_str (initial_slashes path)
             ++ String.concat "/" (normpath_comps path) in
    if p =? "" then "." else p.

(** [os.path.abspath(path)], with [cwd] the value of [os.getcwd()]. *)
Definition abspath (cwd path : string) : string :=
  normpath (if startswith path "/" then path else os_path_join cwd path).

(** [os.path.commonprefix([l1, l2])] on two component lists. *)
Fixpoint commonprefix (l1 l2 : list string) : list string :=
  match l1, l2 with
  | x :: r1, y :: r2 => if x =? y then x :: commonprefix r1 r2 else []
  | _, _ => []
  end.

(** [os.path.relpath(path, start)] *)
Definition os_path_relpath (cwd path start : string) : Res string :=
  if path =? "" then Raise ValueError
  else
    let start_list := components (abspath cwd start) in
    let path_list := components (abspath cwd path) in
    let i := length (commonprefix start_list path_list) in
    let rel_list :=
      (repeat ".." (length start_list - i) ++ skipn i path_list)%list in
    match rel_list with
    | [] => Ok "."
    | c :: rest => Ok (os_path_join_all c rest)
    end.

(* ================================================================= *)
(** ** The filesystem seen by the scanner *)

(** Why [os.scandir] fails on something that is neither a regular
    file nor a directory it can list: a symbolic link whose target is
    missing; a FIFO, socket or device; a directory without read
    permission. *)
Inductive failure : Type :=
| Dangling
| NotDirectory
| Unreadable.

(** The [OSError] that [os.scandir] raises there. *)
Definition os_error (why : failure) : exn :=
  match why with
  | Dangling => FileNotFoundError
  | NotDirectory => NotADirectoryError
  | Unreadable => PermissionError
  end.

(** What [os.scandir] finds at a path: a regular file (or a link to
    one), a directory with its entries in enumeration order (the order
    is the filesystem's, so it is part of the input), or something
    else, which is no file and cannot be listed. *)
Inductive node : Type :=
| File
| Dir (entries : list (string * node))
| Other (why : failure).

(** [entry.is_file()] *)
Definition is_file (n : node) : bool :=
  match n with
  | File => true
  | Dir _ | Other _ => false
  end.

(** [entry.name.startswith('.')] *)
Definition hidden (name : string) : bool := startswith name ".".

(** A directory entry's name as a filesystem gives it: not empty, no
    separator in it, and neither of the two links [os.scandir] leaves
    out. *)
Definition valid_name (name : string) : bool :=
  nonempty name && negb (has_sep name)
  && negb (name =? ".") && negb (name =? "..").

(* ================================================================= *)
(** ** Generators as traces *)

(** What consuming a generator to its end makes observable: the paths
    it hands to [os.scandir] and the paths it yields, in order, and how
    it ends. A consumer that stops early sees a prefix of the events. *)
Inductive event : Type :=
| EvScandir (dir_path : string)
| EvYield (rel_path : string).

Inductive outcome : Type :=
| Done
| Raised (e : exn).

Definition trace : Type := list event * outcome.

Definition tr_done : trace := ([], Done).
Definition tr_raise (e : exn) : trace := ([], Raised e).
Definition tr_yield (p : string) : trace := ([EvYield p], Done).

(** Run [t1], and [t2] after it unless [t1] raised. *)
Definition tr_seq (t1 t2 : trace) : trace :=
  match snd t1 with
  | Done => ((fst t1 ++ fst t2)%list, snd t2)
  | Raised _ => t1
  end.

(** [for x in l: body(x)] *)
Fixpoint for_each {A : Type} (body : A -> trace) (l : list A) : trace :=
  match l with
  | [] => tr_done
  | x :: rest => tr_seq (body x) (for_each body rest)
  end.

(** The paths a trace yields, and the directories it opens. *)
Fixpoint yields (evs : list event) : list string :=
  match evs with
  | [] => []
  | EvYield p :: rest => p :: yields rest
  | EvScandir _ :: rest => yields rest
  end.

Fixpoint opened (evs : list event) : list string :=
  match evs with
  | [] => []
  | EvScandir d :: rest => d :: opened rest
  | EvYield _ :: rest => opened rest
  end.

(** [list(generator)] *)
Definition list_of (t : trace) : Res (list string) :=
  match snd t with
  | Done => Ok (yields (fst t))
  | Raised e => Raise e
  end.

(* ================================================================= *)
(** ** scandir *)

(** The body of the [for] loop of [_scandir] for one entry; [descend]
    is the generator [_scandir(entry.path, ...)], run only on the
    branch that delegates to it. *)
Definition scan_entry (cwd root dir_path : string) (suffix : pyval)
    (recursive : bool) (name : string) (entry : node) (descend : trace)
    : trace :=
  if negb (hidden name) && is_file entry then
    match os_path_relpath cwd (os_path_join dir_path name) root with
    | Raise e => tr_raise e
    | Ok rel_path =>
        if is_None suffix then tr_yield rel_path
        else match str_endswith rel_path suffix with
             | Raise e => tr_raise e
             | Ok true => tr_yield rel_path
             | Ok false => tr_done
             end
    end
  else if recursive then descend
  else tr_done.

(** The inner generator [_scandir(dir_path, suffix, recursive)], closed
    over [root]; [n] is what the filesystem holds at [dir_path].
    [os.scandir] fails on the empty path and on a path that is not a
    directory it can list. *)
Fixpoint _scandir (cwd root dir_path : string) (suffix : pyval)
    (recursive : bool) (n : node) {struct n} : trace :=
  tr_seq ([EvScandir dir_path], Done)
    (if dir_path =? "" then tr_raise FileNotFoundError
     else match n with
          | File => tr_raise NotADirectoryError
          | Dir entries =>
              for_each
                (fun entry =>
                   scan_entry cwd root dir_path suffix recursive
                     (fst entry) (snd entry)
                     (_scandir cwd root (os_path_join dir_path (fst entry))
                        suffix recursive (snd entry)))
                entries
          | Other why => tr_raise (os_error why)
          end).

(** A generator object: nothing is read until it is consumed, which is
    when the filesystem comes in. *)
Definition generator : Type := node -> trace.

(** [scandir(dir_path, suffix=None, recursive=False)] *)
Definition scandir (cwd : string) (dir_path suffix : pyval)
    (recursive : bool) : Res generator :=
  match dir_path with
  | PStr s | PPath s =>
      if negb (is_None suffix) && negb (is_str_or_tuple suffix)
      then Raise TypeError
      else Ok (_scandir cwd s s suffix recursive)
  | _ => Raise TypeError
  end.

(* ================================================================= *)
(** ** scan_folder *)

Definition IMG_EXTENSIONS : list string :=
  [".jpg"; ".JPG"; ".jpeg"; ".JPEG"; ".png"; ".PNG"; ".ppm"; ".PPM";
   ".bmp"; ".BMP"].

(** A call that may read the filesystem: the directories it opened,
    and its result. *)
Definition io (A : Type) : Type := list string * Res A.

(** [BaseDataset.scan_folder(path)] on a filesystem holding [fs] at
    [path]. *)
Definition scan_folder (cwd : string) (path : pyval) (fs : node)
    : io (list string) :=
  match path with
  | PStr s | PPath s =>
      match scandir cwd (PStr s) (PTuple (map PStr IMG_EXTENSIONS)) true with
      | Raise e => ([], Raise e)
      | Ok gen =>
          let t := gen fs in
          (opened (fst t),
           samples <- list_of t ;;
           let samples := map (os_path_join s) samples in
           match samples with
           | [] => Raise AssertionError
           | _ :: _ => Ok samples
           end)
      end
  | _ => ([], Raise TypeError)
  end.

(* ================================================================= *)
(** ** BaseDataset *)

(** [l[idx]] on a Python list: a negative index counts from the end,
    an index out of range raises [IndexError]. *)
Definition list_getitem {A : Type} (l : list A) (idx : Z) : Res A :=
  let n := Z.of_nat (length l) in
  let i := if (idx <? 0)%Z then (idx + n)%Z else idx in
  if ((i <? 0) || (n <=? i))%Z then Raise IndexError
  else match nth_error l (Z.to_nat i) with
       | Some a => Ok a
       | None => Raise IndexError
       end.

(** An instance attribute that a subclass is expected to set:
    never assigned, assigned [None], or holding a value. *)
Inductive attr (A : Type) : Type :=
| Unset
| IsNone
| Value (a : A).
Arguments Unset {A}.
Arguments IsNone {A}.
Arguments Value {A} a.

Section Dataset.

(** One sample (an annotation before the pipelines ran, whatever they
    make of it after) and one step configuration. *)
Variable Data : Type.
Variable Config : Type.

(** Modelled from the spec: the pipeline objects that the builders of
    [ppgan.datasets.preprocess] return, a module outside this file: a
    callable from sample to sample. [__getitem__] also asks for the
    object's truth value, so it carries one. *)
Record Pipeline : Type := {
  pipeline_truthy : bool;
  pipeline_call : Data -> Data
}.

(** The two builders imported from [.preprocess], left abstract. *)
Variable build_load_pipeline : list Config -> Pipeline.
Variable build_transforms : list Config -> Pipeline.

(** The instance: an attribute the constructor did not assign is
    absent ([hasattr] is false). *)
Record BaseDataset : Type := {
  load_pipeline : option Pipeline;
  transforms : option Pipeline;
  annotations : attr (list Data)
}.

(** Truth value of a configuration argument: [None] and the empty
    list are false. *)
Definition config_truthy (cfg : option (list Config)) : bool :=
  match cfg with
  | None | Some [] => false
  | Some (_ :: _) => true
  end.

(** [BaseDataset.__init__(self, load_pipeline=None, transforms=None)] *)
Definition __init__ (load_pipeline_cfg transforms_cfg : option (list Config))
    : BaseDataset :=
  {| load_pipeline :=
       if config_truthy load_pipeline_cfg
       then option_map build_load_pipeline load_pipeline_cfg else None;
     transforms :=
       if config_truthy transforms_cfg
       then option_map build_transforms transforms_cfg else None;
     annotations := Unset |}.

(** What a subclass's [load_annotations] does to the instance:
    [self.annotations = anns]. *)
Definition set_annotations (self : BaseDataset) (anns : attr (list Data))
    : BaseDataset :=
  {| load_pipeline := load_pipeline self;
     transforms := transforms self;
     annotations := anns |}.

(** [self.annotations[idx]] *)
Definition annotations_getitem (self : BaseDataset) (idx : Z) : Res Data :=
  match annotations self with
  | Unset => Raise AttributeError
  | IsNone => Raise TypeError
  | Value anns => list_getitem anns idx
  end.

(** [if hasattr(self, name) and self.<name>: datas = self.<name>(datas)] *)
Definition apply_if_present (p : option Pipeline) (datas : Data) : Data :=
  match p with
  | Some f => if pipeline_truthy f then pipeline_call f datas else datas
  | None => datas
  end.

(** [BaseDataset.__getitem__(self, idx)] *)
Definition __getitem__ (self : BaseDataset) (idx : Z) : Res Data :=
  datas <- annotations_getitem self idx ;;
  let datas := apply_if_present (load_pipeline self) datas in
  let datas := apply_if_present (transforms self) datas in
  Ok datas.

(** [BaseDataset.__len__(self)] *)
Definition __len__ (self : BaseDataset) : Res Z :=
  match annotations self with
  | Unset => Raise AttributeError
  | IsNone => Raise TypeError
  | Value anns => Ok (Z.of_nat (length anns))
  end.

End Dataset.

Arguments pipeline_truthy {Data} p.
Arguments pipeline_call {Data} p datas.
Arguments load_pipeline {Data} b.
Arguments transforms {Data} b.
Arguments annotations {Data} b.
Arguments __init__ {Data Config} build_load_pipeline build_transforms
  load_pipeline_cfg transforms_cfg.
Arguments config_truthy {Config} cfg.
Arguments set_annotations {Data} self anns.
Arguments annotations_getitem {Data} self idx.
Arguments apply_if_present {Data} p datas.
Arguments __getitem__ {Data} self idx.
Arguments __len__ {Data} self.

(* ================================================================= *)
(** ** Vocabulary of the properties *)

(** Every name in the tree is a directory entry's name. *)
Fixpoint wf_tree (n : node) : bool :=
  match n with
  | File | Other _ => true
  | Dir entries =>
      forallb (fun entry => valid_name (fst entry) && wf_tree (snd entry))
        entries
  end.

(** The regular files under a node, each by the names that lead to it
    from the node (the node itself, when it is a file, by no name), in
    enumeration order, depth first. *)
Fixpoint files_under (n : node) : list (list string) :=
  match n with
  | File => [[]]
  | Other _ => []
  | Dir entries =>
      flat_map
        (fun entry => map (cons (fst entry)) (files_under (snd entry)))
        entries
  end.

(** No regular file of the tree has a hidden name. *)
Fixpoint no_hidden_file (n : node) : bool :=
  match n with
  | File | Other _ => true
  | Dir entries =>
      forallb
        (fun entry =>
           negb (hidden (fst entry) && is_file (snd entry))
           && no_hidden_file (snd entry))
        entries
  end.

(** A filter whose test cannot raise: absent, a string, or a tuple
    of strings. *)
Definition typed_suffix (suffix : pyval) : bool :=
  match suffix with
  | PNone | PStr _ => true
  | PTuple items => forallb is_str items
  | _ => false
  end.

(** The relative path passes the filter. *)
Definition passes (suffix : pyval) (rel_path : string) : bool :=
  is_None suffix
  || match str_endswith rel_path suffix with
     | Ok b => b
     | Raise _ => false
     end.

(** A component of a normalised path. *)
Definition component_ok (c : string) : Prop :=
  nonempty c = true /\ has_sep c = false.

(** The last name of a path given by its names. *)
Definition basename (p : list string) : string := last p "".

(** No two entries of a directory share a name, anywhere in the tree. *)
Fixpoint distinct (names : list string) : bool :=
  match names with
  | [] => true
  | x :: rest => negb (existsb (String.eqb x) rest) && distinct rest
  end.

Fixpoint unique_names (n : node) : bool :=
  match n with
  | File | Other _ => true
  | Dir entries =>
      distinct (map fst entries)
      && forallb (fun entry => unique_names (snd entry)) entries
  end.

(* ================================================================= *)
(** ** Inputs of the examples *)

(** The folder [/data/imgs] of the end-to-end scenario. *)
Definition scenario_entries : list (string * node) :=
  [("a.png", File); ("b.txt", File); (".hidden.png", File);
   ("sub", Dir [("c.jpg", File)])].

(** A checkout: a hidden directory beside a regular file. *)
Definition checkout_entries : list (string * node) :=
  [(".git", Dir [("x.png", File)]); ("a.png", File)].

(** A folder with a regular file and a hidden regular file after it. *)
Definition dotfile_entries : list (string * node) :=
  [("a.png", File); (".gitignore", File)].

(** A folder with a hidden regular file first. *)
Definition desktop_entries : list (string * node) :=
  [(".DS_Store", File); ("a.png", File)].

(** A folder with a regular file and a symbolic link whose target is
    missing. *)
Definition broken_link_entries : list (string * node) :=
  [("a.png", File); ("latest", Other Dangling)].

(** A folder with images at three depths and no hidden file. *)
Definition gallery_entries : list (string * node) :=
  [("a.png", File); ("notes.txt", File);
   ("sub", Dir [("c.jpg", File); ("deep", Dir [("e.bmp", File)])])].

(** The suffix filters the specification lists as accepted, in its
    words: an absent value, a single string, or a set or tuple of
    strings. *)
Definition spec_accepts_suffix (v : pyval) : bool :=
  match v with
  | PNone | PStr _ => true
  | PTuple items | PSet items => forallb is_str items
  | _ => false
  end.

(** A dataset whose two pipelines do not commute: the load pipeline
    adds one, the transform pipeline doubles. *)
Definition example_build_load (_ : list unit) : Pipeline Z :=
  {| pipeline_truthy := true; pipeline_call := fun z => (z + 1)%Z |}.

Definition example_build_transforms (_ : list unit) : Pipeline Z :=
  {| pipeline_truthy := true; pipeline_call := fun z => (2 * z)%Z |}.

Definition example_dataset : BaseDataset Z :=
  set_annotations
    (__init__ example_build_load example_build_transforms
       (Some [tt]) (Some [tt]))
    (Value [10; 20; 30]%Z).

(* ================================================================= *)
(** ** Further vocabulary *)

(** The body of the abstract [BaseDataset.load_annotations], as a
    subclass that calls it through [super()] runs it:
    [self.annotations = None]. *)
Definition load_annotations {Data : Type} (self : BaseDataset Data)
    : BaseDataset Data :=
  set_annotations self IsNone.


(** The directories under a node, the node itself first (by no name),
    each by the names that lead to it, parents before children, in
    enumeration order. *)
Fixpoint dirs_under (n : node) : list (list string) :=
  match n with
  | File | Other _ => []
  | Dir entries =>
      [] :: flat_map
              (fun entry => map (cons (fst entry)) (dirs_under (snd entry)))
              entries
  end.

(** Everything in the tree is a regular file or a directory that
    [os.scandir] can list. *)
Fixpoint all_listable (n : node) : bool :=
  match n with
  | File => true
  | Dir entries => forallb (fun entry => all_listable (snd entry)) entries
  | Other _ => false
  end.

(** A folder with a hidden directory and no hidden regular file. *)
Definition project_entries : list (string * node) :=
  [("b.jpg", File);
   (".cache", Dir [("thumb.png", File)]);
   ("raw", Dir [("c.txt", File); ("d.PNG", File)])].

(* ================================================================= *)
(** * Strings and paths *)

Section StringFacts.

Lemma startswith_slash (c : ascii) (s : string) :
  startswith (String c s) "/" = Ascii.eqb c slash.
Proof.
  simpl. destruct s; apply andb_true_r.
Qed.

Lemma append_empty_r (s : string) : s ++ "" = s.
Proof. induction s as [| c s IH]; simpl; [reflexivity | now rewrite IH]. Qed.

Lemma append_assoc (a b c : string) : (a ++ b) ++ c = a ++ b ++ c.
Proof. induction a as [| x a IH]; simpl; [reflexivity | now rewrite IH]. Qed.

Lemma append_eq_empty (a b : string) : a ++ b = "" -> a = "" /\ b = "".
Proof. destruct a; simpl; intros H; [auto | discriminate]. Qed.

Lemma split_sep_not_nil (s : string) : split_sep s <> [].
Proof.
  induction s as [| c s IH]; simpl; [discriminate |].
  destruct (Ascii.eqb c slash); [discriminate |].
  destruct (split_sep s); [contradiction | discriminate].
Qed.

Lemma split_sep_no_sep (s : string) :
  has_sep s = false -> split_sep s = [s].
Proof.
  induction s as [| c s IH]; simpl; intros H; [reflexivity |].
  apply orb_false_iff in H. destruct H as [Hc Hs].
  rewrite Hc, (IH Hs). reflexivity.
Qed.

Lemma split_sep_app (a b : string) :
  split_sep (a ++ String slash b) = (split_sep a ++ split_sep b)%list.
Proof.
  induction a as [| c a IH]; simpl; [reflexivity |].
  destruct (Ascii.eqb c slash); rewrite IH; [reflexivity |].
  destruct (split_sep a) as [| h t] eqn:Hsplit;
    [now destruct (split_sep_not_nil a) | reflexivity].
Qed.

Lemma split_sep_elements (s : string) :
  Forall (fun c => has_sep c = false) (split_sep s).
Proof.
  induction s as [| c s IH]; simpl; [repeat constructor |].
  destruct (Ascii.eqb c slash) eqn:Hc;
    [constructor; [reflexivity | exact IH] |].
  destruct (split_sep s) as [| h t];
    [repeat constructor; simpl; now rewrite Hc |].
  inversion IH; subst. constructor; [simpl; now rewrite Hc | assumption].
Qed.

Lemma endswith_nil (p : string) : endswith "" p = ("" =? p).
Proof. unfold endswith. apply orb_false_r. Qed.

Lemma endswith_cons (c : ascii) (s p : string) :
  endswith (String c s) p = (String c s =? p) || endswith s p.
Proof. reflexivity. Qed.

(** [endswith] is the suffix relation. *)
Lemma endswith_iff (s p : string) :
  endswith s p = true <-> exists x, s = x ++ p.
Proof.
  induction s as [| c s IH].
  - rewrite endswith_nil, String.eqb_eq. split.
    + intros H. subst p. now exists "".
    + intros [x Hx]. symmetry in Hx. apply append_eq_empty in Hx.
      destruct Hx as [_ Hp]. now subst p.
  - rewrite endswith_cons, orb_true_iff, IH, String.eqb_eq. split.
    + intros [Heq | [x Hx]];
        [now exists "" | exists (String c x); simpl; now rewrite Hx].
    + intros [[| c' x] Hx]; simpl in Hx; [now left | right].
      inversion Hx; subst. now exists x.
Qed.

(** A string that ends like a non-empty, separator-free name does
    not end with a separator. *)
Lemma endswith_sep_after_name (x name : string) :
  nonempty name = true -> has_sep name = false ->
  endswith (x ++ name) "/" = false.
Proof.
  intros Hne Hsep.
  assert (Hname : endswith name "/" = false).
  { clear Hne. induction name as [| c n IH]; [reflexivity |].
    simpl in Hsep. apply orb_false_iff in Hsep. destruct Hsep as [Hc Hn].
    rewrite endswith_cons, (IH Hn), orb_false_r. apply String.eqb_neq.
    intros Heq. inversion Heq; subst. discriminate Hc. }
  induction x as [| c x IH]; [exact Hname |].
  change (String c x ++ name) with (String c (x ++ name)).
  rewrite endswith_cons, IH, orb_false_r. apply String.eqb_neq.
  intros Heq. inversion Heq as [[Hc Hrest]].
  apply append_eq_empty in Hrest. destruct Hrest as [_ Hn]. subst name.
  discriminate Hne.
Qed.

Lemma valid_name_parts (name : string) :
  valid_name name = true ->
  nonempty name = true /\ has_sep name = false
  /\ name <> "." /\ name <> "..".
Proof.
  unfold valid_name. rewrite !andb_true_iff, !negb_true_iff.
  intros [[[Hne Hsep] Hdot] Hdotdot].
  repeat split; try assumption; now apply String.eqb_neq.
Qed.

Lemma valid_name_not_absolute (name : string) :
  valid_name name = true -> startswith name "/" = false.
Proof.
  intros H. apply valid_name_parts in H. destruct H as [Hne [Hsep _]].
  destruct name as [| c n]; [reflexivity |].
  rewrite startswith_slash. simpl in Hsep.
  now apply orb_false_iff in Hsep.
Qed.

End StringFacts.

Section PathFacts.

(** [os.path.join] with a directory entry's name appends it, after a
    separator unless the left part is empty or already ends in one. *)
Lemma os_path_join_name (a name : string) :
  valid_name name = true ->
  (((a = "" \/ endswith a "/" = true) /\ os_path_join a name = a ++ name)
   \/ (a <> "" /\ endswith a "/" = false
       /\ os_path_join a name = a ++ String slash name)).
Proof.
  intros Hv. unfold os_path_join.
  rewrite (valid_name_not_absolute name Hv).
  destruct (String.eqb_spec a "") as [Ha | Ha]; simpl.
  - left. split; [now left | reflexivity].
  - destruct (endswith a "/") eqn:He.
    + left. split; [now right | reflexivity].
    + right. repeat split; assumption.
Qed.

Lemma os_path_join_name_nonempty (a name : string) :
  valid_name name = true -> os_path_join a name <> "".
Proof.
  intros Hv Heq.
  destruct (valid_name_parts name Hv) as [Hne _].
  destruct (os_path_join_name a name Hv) as [[_ Hj] | [_ [_ Hj]]];
    rewrite Hj in Heq; apply append_eq_empty in Heq;
    destruct Heq as [_ Heq]; [subst name | ]; discriminate.
Qed.

Lemma os_path_join_name_endswith (a name : string) :
  valid_name name = true -> endswith (os_path_join a name) "/" = false.
Proof.
  intros Hv. destruct (valid_name_parts name Hv) as [Hne [Hsep _]].
  destruct (os_path_join_name a name Hv) as [[_ Hj] | [_ [_ Hj]]];
    rewrite Hj.
  - now apply endswith_sep_after_name.
  - change (a ++ String slash name) with (a ++ "/" ++ name).
    rewrite <- append_assoc. now apply endswith_sep_after_name.
Qed.

Lemma os_path_join_name_absolute (a name : string) :
  valid_name name = true -> startswith a "/" = true ->
  startswith (os_path_join a name) "/" = true.
Proof.
  intros Hv Ha. destruct a as [| c a]; [discriminate |].
  rewrite startswith_slash in Ha.
  destruct (os_path_join_name (String c a) name Hv)
    as [[_ Hj] | [_ [_ Hj]]]; rewrite Hj;
    change (String c a ++ ?x) with (String c (a ++ x));
    now rewrite startswith_slash.
Qed.

(** [initial_slashes] reads at most three characters. *)
Lemma initial_slashes_3 (x1 x2 x3 : ascii) (r r' : string) :
  initial_slashes (String x1 (String x2 (String x3 r)))
  = initial_slashes (String x1 (String x2 (String x3 r'))).
Proof.
  unfold initial_slashes. simpl.
  destruct (Ascii.eqb x1 "/"), (Ascii.eqb x2 "/"), (Ascii.eqb x3 "/");
    reflexivity.
Qed.

Lemma initial_slashes_2 (x1 x2 y : ascii) (r : string) :
  Ascii.eqb y slash = false \/ Ascii.eqb x2 slash = false ->
  initial_slashes (String x1 (String x2 (String y r)))
  = initial_slashes (String x1 (String x2 "")).
Proof.
  unfold initial_slashes. simpl. unfold slash.
  intros [H | H]; rewrite H;
    destruct (Ascii.eqb x1 "/"); try destruct (Ascii.eqb x2 "/");
    reflexivity.
Qed.

Lemma initial_slashes_1 (x1 y : ascii) (r : string) :
  Ascii.eqb y slash = false ->
  initial_slashes (String x1 (String y r)) = initial_slashes (String x1 "").
Proof.
  unfold initial_slashes. simpl. unfold slash.
  intros H. rewrite H. destruct (Ascii.eqb x1 "/"); reflexivity.
Qed.

Lemma initial_slashes_join (a name : string) :
  valid_name name = true -> startswith a "/" = true ->
  initial_slashes (os_path_join a name) = initial_slashes a.
Proof.
  intros Hv Ha.
  pose proof (valid_name_not_absolute name Hv) as Hrel.
  destruct name as [| n0 name']; [discriminate |].
  rewrite startswith_slash in Hrel.
  destruct (os_path_join_name a _ Hv) as [[_ Hj] | [Hne [He Hj]]];
    rewrite Hj; clear Hj.
  - destruct a as [| x1 [| x2 [| x3 a3]]]; [discriminate | | |].
    + apply initial_slashes_1. exact Hrel.
    + apply initial_slashes_2. now left.
    + apply initial_slashes_3.
  - destruct a as [| x1 [| x2 [| x3 a3]]]; [discriminate | | |].
    + rewrite startswith_slash in Ha. apply Ascii.eqb_eq in Ha. subst x1.
      discriminate He.
    + apply initial_slashes_2. right.
      destruct (Ascii.eqb_spec x2 slash) as [Hx | Hx]; [| reflexivity].
      subst x2. rewrite !endswith_cons in He.
      rewrite orb_true_r in He. discriminate He.
    + apply initial_slashes_3.
Qed.

Lemma normpath_step_name (k : nat) (comps : list string) (name : string) :
  valid_name name = true ->
  normpath_step k comps name = (comps ++ [name])%list.
Proof.
  intros Hv. destruct (valid_name_parts name Hv) as [Hne [_ [Hd Hdd]]].
  unfold normpath_step. unfold nonempty in Hne.
  apply negb_true_iff in Hne. rewrite Hne.
  apply String.eqb_neq in Hd, Hdd. rewrite Hd, Hdd. reflexivity.
Qed.

(** Normalising [join(a, name)] adds the one component [name]. *)
Lemma normpath_comps_join (a name : string) :
  valid_name name = true -> startswith a "/" = true ->
  normpath_comps (os_path_join a name)
  = (normpath_comps a ++ [name])%list.
Proof.
  intros Hv Ha. unfold normpath_comps.
  rewrite (initial_slashes_join a name Hv Ha).
  destruct (valid_name_parts name Hv) as [_ [Hsep _]].
  destruct (os_path_join_name a name Hv) as [[He Hj] | [_ [_ Hj]]];
    rewrite Hj; clear Hj.
  - destruct He as [He | He]; [subst a; discriminate |].
    apply endswith_iff in He. destruct He as [a' Ha']. subst a.
    rewrite append_assoc. change ("/" ++ name) with (String slash name).
    change (a' ++ "/") with (a' ++ String slash "").
    rewrite !split_sep_app, !fold_left_app, (split_sep_no_sep name Hsep).
    simpl. now rewrite normpath_step_name.
  - rewrite split_sep_app, fold_left_app, (split_sep_no_sep name Hsep).
    simpl. now rewrite normpath_step_name.
Qed.

Lemma normpath_comps_ok (a : string) :
  Forall component_ok (normpath_comps a).
Proof.
  unfold normpath_comps. generalize (initial_slashes a) as k. intros k.
  assert (Hgen : forall l acc,
             Forall (fun c => has_sep c = false) l ->
             Forall component_ok acc ->
             Forall component_ok (fold_left (normpath_step k) l acc)).
  { induction l as [| c l IH]; intros acc Hl Hacc; [exact Hacc |].
    inversion Hl; subst. simpl. apply IH; [assumption |].
    unfold normpath_step.
    destruct (String.eqb_spec c "") as [Hc | Hc]; simpl; [exact Hacc |].
    destruct (c =? "."); [exact Hacc |].
    match goal with |- Forall _ (if ?b then _ else _) => destruct b end.
    - apply Forall_app. split; [exact Hacc |].
      constructor; [| constructor]. split; [| assumption].
      unfold nonempty. apply negb_true_iff. now apply String.eqb_neq.
    - clear - Hacc. induction Hacc as [| x l Hx Hl IH]; [constructor |].
      simpl. destruct l; [constructor |]. constructor; assumption. }
  apply Hgen; [apply split_sep_elements | constructor].
Qed.

Lemma components_concat (comps : list string) :
  Forall component_ok comps ->
  components (String.concat "/" comps) = comps.
Proof.
  unfold components.
  induction comps as [| c comps IH]; intros Hok; [reflexivity |].
  inversion Hok as [| ? ? [Hne Hsep] Hrest]; subst.
  destruct comps as [| c' comps'].
  - simpl. rewrite (split_sep_no_sep c Hsep). simpl. now rewrite Hne.
  - change (String.concat "/" (c :: c' :: comps'))
      with (c ++ String slash (String.concat "/" (c' :: comps'))).
    rewrite split_sep_app, filter_app, (split_sep_no_sep c Hsep).
    rewrite (IH Hrest). simpl. now rewrite Hne.
Qed.

Lemma components_slashes (k : nat) (s : string) :
  components (slashes_str k ++ s) = components s.
Proof.
  induction k as [| k IH]; [reflexivity |].
  unfold components in *. simpl. exact IH.
Qed.

(** The components of [normpath] of an absolute path are the
    normalised components. *)
Lemma components_normpath (a : string) :
  startswith a "/" = true ->
  components (normpath a) = normpath_comps a.
Proof.
  intros Ha. unfold normpath.
  destruct a as [| c a]; [discriminate |].
  change (String c a =? "") with false. cbv iota.
  assert (Hk : exists k, initial_slashes (String c a) = S k).
  { unfold initial_slashes. rewrite Ha.
    match goal with |- context [if ?b then _ else _] => destruct b end;
      eauto. }
  destruct Hk as [k Hk]. rewrite Hk.
  change (slashes_str (S k) ++ ?s =? "") with false. cbv iota.
  rewrite components_slashes. apply components_concat.
  apply normpath_comps_ok.
Qed.

Lemma os_path_join_if (a b : string) :
  startswith b "/" = false -> a <> "" ->
  os_path_join a b
  = if endswith a "/" then a ++ b else a ++ String slash b.
Proof.
  intros Hb Ha. unfold os_path_join. rewrite Hb.
  apply String.eqb_neq in Ha. rewrite Ha. reflexivity.
Qed.

Lemma os_path_join_empty (b : string) : os_path_join "" b = b.
Proof.
  unfold os_path_join. destruct (startswith b "/"); reflexivity.
Qed.

Lemma startswith_app (a b : string) :
  a <> "" -> startswith (a ++ b) "/" = startswith a "/".
Proof.
  destruct a as [| c a]; [congruence |]. intros _.
  change (String c a ++ b) with (String c (a ++ b)).
  now rewrite !startswith_slash.
Qed.

Lemma endswith_app_nonempty (a b : string) :
  b <> "" -> endswith (a ++ b) "/" = endswith b "/".
Proof.
  intros Hb. induction a as [| c a IH]; [reflexivity |].
  change (String c a ++ b) with (String c (a ++ b)).
  rewrite endswith_cons, IH.
  replace (String c (a ++ b) =? "/") with false; [reflexivity |].
  symmetry. apply String.eqb_neq. intros Heq. inversion Heq as [[Hc Hab]].
  apply append_eq_empty in Hab. destruct Hab. contradiction.
Qed.

Lemma absolute_nonempty (a : string) : startswith a "/" = true -> a <> "".
Proof. intros Ha Heq. subst a. discriminate Ha. Qed.

(** The path that [abspath] normalises is absolute. *)
Lemma abspath_absolute (cwd p : string) :
  startswith cwd "/" = true ->
  startswith (if startswith p "/" then p else os_path_join cwd p) "/"
  = true.
Proof.
  intros Hcwd. destruct (startswith p "/") eqn:Hp; [exact Hp |].
  pose proof (absolute_nonempty cwd Hcwd) as Hne.
  rewrite (os_path_join_if cwd p Hp Hne).
  destruct (endswith cwd "/"); now rewrite startswith_app.
Qed.

(** Making [join(root, name)] absolute is joining [name] to the
    absolute [root]. *)
Lemma absolute_join (cwd root name : string) :
  startswith cwd "/" = true -> valid_name name = true ->
  (if startswith (os_path_join root name) "/"
   then os_path_join root name
   else os_path_join cwd (os_path_join root name))
  = os_path_join (if startswith root "/" then root
                  else os_path_join cwd root) name.
Proof.
  intros Hcwd Hv.
  pose proof (valid_name_not_absolute name Hv) as Hrel.
  pose proof (absolute_nonempty cwd Hcwd) as Hcwdne.
  destruct (valid_name_parts name Hv) as [Hnonempty _].
  assert (Hname : name <> "") by (intros ->; discriminate Hnonempty).
  destruct (startswith root "/") eqn:Hroot.
  - now rewrite (os_path_join_name_absolute root name Hv Hroot).
  - destruct (String.eqb_spec root "") as [Hr | Hr].
    + subst root. rewrite os_path_join_empty, Hrel.
      rewrite (os_path_join_if cwd name Hrel Hcwdne).
      rewrite (os_path_join_if cwd "" eq_refl Hcwdne).
      destruct (endswith cwd "/") eqn:He.
      * rewrite append_empty_r.
        rewrite (os_path_join_if cwd name Hrel Hcwdne), He. reflexivity.
      * assert (Hne' : cwd ++ String slash "" <> "").
        { intros Heq. apply append_eq_empty in Heq.
          destruct Heq; contradiction. }
        rewrite (os_path_join_if _ name Hrel Hne').
        rewrite endswith_app_nonempty by discriminate.
        change (endswith (String slash "") "/") with true. cbv iota.
        now rewrite append_assoc.
    + rewrite (os_path_join_if root name Hrel Hr).
      rewrite (os_path_join_if cwd root Hroot Hcwdne).
      assert (Hjrel : startswith
                        (if endswith root "/" then root ++ name
                         else root ++ String slash name) "/" = false).
      { destruct (endswith root "/"); now rewrite startswith_app. }
      rewrite Hjrel.
      rewrite (os_path_join_if cwd _ Hjrel Hcwdne).
      assert (Hne' : (if endswith cwd "/" then cwd ++ root
                      else cwd ++ String slash root) <> "").
      { destruct (endswith cwd "/"); intros Heq;
          apply append_eq_empty in Heq; destruct Heq; congruence. }
      rewrite (os_path_join_if _ name Hrel Hne').
      destruct (endswith cwd "/") eqn:Hec.
      * rewrite (endswith_app_nonempty cwd root Hr).
        destruct (endswith root "/"); now rewrite append_assoc.
      * change (cwd ++ String slash root) with (cwd ++ ("/" ++ root)).
        rewrite <- append_assoc.
        rewrite (endswith_app_nonempty (cwd ++ "/") root Hr).
        destruct (endswith root "/"); now rewrite !append_assoc.
Qed.

(** The components of the absolute path of [join(root, name)]. *)
Lemma components_abspath_join (cwd root name : string) :
  startswith cwd "/" = true -> valid_name name = true ->
  components (abspath cwd (os_path_join root name))
  = (components (abspath cwd root) ++ [name])%list.
Proof.
  intros Hcwd Hv. unfold abspath.
  rewrite (absolute_join cwd root name Hcwd Hv).
  pose proof (abspath_absolute cwd root Hcwd) as Habs.
  rewrite !components_normpath;
    [ now apply normpath_comps_join
    | exact Habs
    | now apply os_path_join_name_absolute ].
Qed.

Lemma components_abspath_join_all (cwd root : string) (cs : list string) :
  startswith cwd "/" = true ->
  Forall (fun c => valid_name c = true) cs ->
  components (abspath cwd (os_path_join_all root cs))
  = (components (abspath cwd root) ++ cs)%list.
Proof.
  intros Hcwd. revert root. unfold os_path_join_all.
  induction cs as [| c cs IH]; intros root Hcs.
  - simpl. now rewrite app_nil_r.
  - inversion Hcs; subst. simpl.
    rewrite IH by assumption.
    rewrite components_abspath_join by assumption.
    now rewrite <- app_assoc.
Qed.

Lemma os_path_join_all_snoc (root : string) (cs : list string)
    (name : string) :
  os_path_join (os_path_join_all root cs) name
  = os_path_join_all root (cs ++ [name]).
Proof. unfold os_path_join_all. now rewrite fold_left_app. Qed.

Lemma commonprefix_app (l t : list string) : commonprefix l (l ++ t) = l.
Proof.
  induction l as [| x l IH]; simpl; [now destruct t |].
  now rewrite String.eqb_refl, IH.
Qed.

(** Joining names one after the other writes them with separators
    between. *)
Lemma os_path_join_all_names (c : string) (rest : list string) :
  Forall (fun c => valid_name c = true) (c :: rest) ->
  os_path_join_all c rest = String.concat "/" (c :: rest).
Proof.
  unfold os_path_join_all.
  assert (Hgen : forall rest acc,
             acc <> "" -> endswith acc "/" = false ->
             Forall (fun c => valid_name c = true) rest ->
             fold_left os_path_join rest acc
             = match rest with
               | [] => acc
               | _ :: _ => acc ++ String slash (String.concat "/" rest)
               end).
  { clear. induction rest as [| x rest IH]; intros acc Hne He Hrest;
      [reflexivity |].
    inversion Hrest as [| ? ? Hx Hrest']; subst. simpl fold_left.
    rewrite IH;
      [ | now apply os_path_join_name_nonempty
        | now apply os_path_join_name_endswith
        | assumption ].
    rewrite (os_path_join_if acc x (valid_name_not_absolute x Hx) Hne), He.
    destruct rest as [| y rest]; [reflexivity |].
    change (String.concat "/" (x :: y :: rest))
      with (x ++ String slash (String.concat "/" (y :: rest))).
    change (acc ++ String slash x) with (acc ++ ("/" ++ x)).
    change (String slash (x ++ ?r)) with ("/" ++ (x ++ r)).
    now rewrite !append_assoc. }
  intros Hall. inversion Hall as [| ? ? Hc Hrest]; subst.
  destruct (valid_name_parts c Hc) as [Hne [Hsep _]].
  rewrite Hgen; [now destruct rest | | | assumption].
  - intros ->. discriminate Hne.
  - exact (endswith_sep_after_name "" c Hne Hsep).
Qed.

(** An entry that lies under [root] by the names [cs] and [name] has
    the relative path made of these names: the names of the
    directories between [root] and the entry are part of it. *)
Lemma relpath_under_root (cwd root : string) (cs : list string)
    (name : string) :
  startswith cwd "/" = true ->
  Forall (fun c => valid_name c = true) cs ->
  valid_name name = true ->
  os_path_relpath cwd (os_path_join (os_path_join_all root cs) name) root
  = Ok (String.concat "/" (cs ++ [name])).
Proof.
  intros Hcwd Hcs Hv. unfold os_path_relpath.
  pose proof (os_path_join_name_nonempty (os_path_join_all root cs) name Hv)
    as Hne.
  apply String.eqb_neq in Hne. rewrite Hne.
  assert (Hall : Forall (fun c => valid_name c = true) (cs ++ [name]))
    by (apply Forall_app; split; [assumption | now constructor]).
  rewrite os_path_join_all_snoc.
  rewrite (components_abspath_join_all cwd root _ Hcwd Hall).
  rewrite commonprefix_app, Nat.sub_diag, skipn_app, skipn_all,
    Nat.sub_diag.
  simpl repeat. simpl skipn. simpl app.
  destruct (cs ++ [name])%list as [| c rest] eqn:Hlist;
    [now destruct cs |].
  now rewrite os_path_join_all_names.
Qed.

End PathFacts.

(* ================================================================= *)
(** * The scanner *)

Section TraceFacts.

Lemma yields_app (e1 e2 : list event) :
  yields (e1 ++ e2) = (yields e1 ++ yields e2)%list.
Proof.
  induction e1 as [| [d | p] e1 IH]; simpl; [reflexivity | exact IH |].
  now rewrite IH.
Qed.

Lemma opened_app (e1 e2 : list event) :
  opened (e1 ++ e2) = (opened e1 ++ opened e2)%list.
Proof.
  induction e1 as [| [d | p] e1 IH]; simpl; [reflexivity | | exact IH].
  now rewrite IH.
Qed.

Lemma yields_tr_seq (t1 t2 : trace) (y : string) :
  In y (yields (fst (tr_seq t1 t2))) ->
  In y (yields (fst t1)) \/ In y (yields (fst t2)).
Proof.
  unfold tr_seq. destruct (snd t1); simpl; [| now left].
  rewrite yields_app, in_app_iff. trivial.
Qed.

Lemma opened_tr_seq (t1 t2 : trace) (d : string) :
  In d (opened (fst (tr_seq t1 t2))) ->
  In d (opened (fst t1)) \/ In d (opened (fst t2)).
Proof.
  unfold tr_seq. destruct (snd t1); simpl; [| now left].
  rewrite opened_app, in_app_iff. trivial.
Qed.

Lemma yields_for_each {A : Type} (body : A -> trace) (l : list A)
    (y : string) :
  In y (yields (fst (for_each body l))) ->
  exists x, In x l /\ In y (yields (fst (body x))).
Proof.
  induction l as [| x l IH]; simpl; [contradiction |].
  intros Hin. apply yields_tr_seq in Hin. destruct Hin as [Hin | Hin].
  - exists x. split; [now left | exact Hin].
  - destruct (IH Hin) as [x' [Hx' Hy]]. exists x'.
    split; [now right | exact Hy].
Qed.

Lemma opened_for_each {A : Type} (body : A -> trace) (l : list A)
    (d : string) :
  In d (opened (fst (for_each body l))) ->
  exists x, In x l /\ In d (opened (fst (body x))).
Proof.
  induction l as [| x l IH]; simpl; [contradiction |].
  intros Hin. apply opened_tr_seq in Hin. destruct Hin as [Hin | Hin].
  - exists x. split; [now left | exact Hin].
  - destruct (IH Hin) as [x' [Hx' Hy]]. exists x'.
    split; [now right | exact Hy].
Qed.

(** A loop whose every turn opens no directory opens none. *)
Lemma opened_for_each_nil {A : Type} (body : A -> trace) (l : list A) :
  (forall x, In x l -> opened (fst (body x)) = []) ->
  opened (fst (for_each body l)) = [].
Proof.
  intros Hall.
  destruct (opened (fst (for_each body l))) as [| d ds] eqn:Hop;
    [reflexivity |].
  assert (Hin : In d (opened (fst (for_each body l))))
    by (rewrite Hop; now left).
  apply opened_for_each in Hin. destruct Hin as [x [Hx Hd]].
  rewrite (Hall x Hx) in Hd. contradiction.
Qed.

(** A loop raises [e] when one turn raises [e] and every other turn
    ends normally or raises [e] too. *)
Lemma for_each_raises {A : Type} (body : A -> trace) (l : list A)
    (e : exn) :
  (forall x, In x l -> snd (body x) = Done \/ snd (body x) = Raised e) ->
  (exists x, In x l /\ snd (body x) = Raised e) ->
  snd (for_each body l) = Raised e.
Proof.
  induction l as [| x l IH]; intros Hall [x0 [Hin Hx0]];
    [contradiction |].
  simpl. unfold tr_seq.
  destruct (Hall x (or_introl eq_refl)) as [Hx | Hx]; rewrite Hx;
    [| exact Hx].
  simpl. apply IH.
  - intros x' Hx'. apply Hall. now right.
  - destruct Hin as [Heq | Hin]; [subst x0; congruence |].
    exists x0. split; assumption.
Qed.

End TraceFacts.

Section TreeFacts.

(** Induction on trees, with the hypothesis for every entry of a
    directory. *)
Lemma node_ind' (P : node -> Prop) :
  P File ->
  (forall entries,
      Forall (fun entry => P (snd entry)) entries -> P (Dir entries)) ->
  (forall why, P (Other why)) ->
  forall n, P n.
Proof.
  intros HFile HDir HOther.
  fix IH 1. intros [| entries | why]; [exact HFile | | apply HOther].
  apply HDir. induction entries as [| [name e] entries IHentries];
    constructor; [apply IH | exact IHentries].
Qed.

Lemma wf_tree_entry (entries : list (string * node)) (entry : string * node) :
  wf_tree (Dir entries) = true -> In entry entries ->
  valid_name (fst entry) = true /\ wf_tree (snd entry) = true.
Proof.
  simpl. rewrite forallb_forall. intros Hall Hin.
  apply andb_true_iff. exact (Hall entry Hin).
Qed.

Lemma files_under_entry (entries : list (string * node))
    (entry : string * node) (p : list string) :
  In entry entries -> In p (files_under (snd entry)) ->
  In (fst entry :: p) (files_under (Dir entries)).
Proof.
  intros Hin Hp. simpl. apply in_flat_map. exists entry.
  split; [exact Hin | now apply in_map].
Qed.

Lemma files_under_valid (n : node) :
  wf_tree n = true ->
  forall p, In p (files_under n) ->
            Forall (fun c => valid_name c = true) p.
Proof.
  induction n as [| entries IH | why] using node_ind'; intros Hwf p Hp.
  - destruct Hp as [<- | []]. constructor.
  - simpl in Hp. apply in_flat_map in Hp.
    destruct Hp as [entry [Hin Hp]]. apply in_map_iff in Hp.
    destruct Hp as [p' [<- Hp']].
    destruct (wf_tree_entry entries entry Hwf Hin) as [Hname Hsub].
    constructor; [exact Hname |].
    rewrite Forall_forall in IH. exact (IH entry Hin Hsub p' Hp').
  - contradiction.
Qed.

End TreeFacts.

Section ScannerFacts.

Variable cwd : string.
Hypothesis cwd_absolute : startswith cwd "/" = true.

Variable root : string.
Variable suffix : pyval.

Lemma tr_seq_event (ev : event) (t : trace) :
  tr_seq ([ev], Done) t = (ev :: fst t, snd t).
Proof. reflexivity. Qed.

Lemma _scandir_File (dir_path : string) (recursive : bool) :
  _scandir cwd root dir_path suffix recursive File
  = ([EvScandir dir_path],
     Raised (if dir_path =? "" then FileNotFoundError
             else NotADirectoryError)).
Proof. simpl. rewrite tr_seq_event. now destruct (dir_path =? ""). Qed.

Lemma _scandir_Other (dir_path : string) (recursive : bool)
    (why : failure) :
  _scandir cwd root dir_path suffix recursive (Other why)
  = ([EvScandir dir_path],
     Raised (if dir_path =? "" then FileNotFoundError else os_error why)).
Proof. simpl. rewrite tr_seq_event. now destruct (dir_path =? ""). Qed.

Lemma _scandir_Dir (dir_path : string) (recursive : bool)
    (entries : list (string * node)) :
  _scandir cwd root dir_path suffix recursive (Dir entries)
  = tr_seq ([EvScandir dir_path], Done)
      (if dir_path =? "" then tr_raise FileNotFoundError
       else for_each
              (fun entry =>
                 scan_entry cwd root dir_path suffix recursive
                   (fst entry) (snd entry)
                   (_scandir cwd root (os_path_join dir_path (fst entry))
                      suffix recursive (snd entry)))
              entries).
Proof. reflexivity. Qed.

(** The loop body for an entry that lies under [root] by the names
    [cs] and [name]: the relative path is made of these names. *)
Lemma scan_entry_under_root (cs : list string) (recursive : bool)
    (name : string) (entry : node) (descend : trace) :
  Forall (fun c => valid_name c = true) cs ->
  valid_name name = true ->
  scan_entry cwd root (os_path_join_all root cs) suffix recursive
    name entry descend
  = let rel_path := String.concat "/" (cs ++ [name]) in
    if negb (hidden name) && is_file entry then
      if is_None suffix then tr_yield rel_path
      else match str_endswith rel_path suffix with
           | Raise e => tr_raise e
           | Ok true => tr_yield rel_path
           | Ok false => tr_done
           end
    else if recursive then descend
    else tr_done.
Proof.
  intros Hcs Hname. unfold scan_entry.
  now rewrite (relpath_under_root cwd root cs name cwd_absolute Hcs Hname).
Qed.

(** What the loop body can yield by itself. *)
Lemma scan_entry_yields (cs : list string) (recursive : bool)
    (name : string) (entry : node) (descend : trace) (y : string) :
  Forall (fun c => valid_name c = true) cs ->
  valid_name name = true ->
  In y (yields (fst (scan_entry cwd root (os_path_join_all root cs) suffix
                       recursive name entry descend))) ->
  (y = String.concat "/" (cs ++ [name])
   /\ hidden name = false /\ entry = File
   /\ (suffix = PNone \/ str_endswith y suffix = Ok true))
  \/ (recursive = true /\ In y (yields (fst descend))).
Proof.
  intros Hcs Hname. rewrite scan_entry_under_root by assumption.
  cbv zeta.
  destruct (hidden name) eqn:Hh; simpl negb; simpl andb.
  - destruct recursive; simpl; [now right | contradiction].
  - destruct entry as [| sub | why]; simpl is_file; cbv iota.
    + destruct suffix eqn:Hs; simpl is_None; cbv iota;
        try (simpl; intros [<- | []]; left; repeat split; now left).
      all: try (simpl; contradiction).
      all: destruct (str_endswith _ _) as [[|] |] eqn:He; simpl;
        try contradiction;
        intros [<- | []]; left; repeat split; now right.
    + destruct recursive; simpl; [now right | contradiction].
    + destruct recursive; simpl; [now right | contradiction].
Qed.

Lemma scan_entry_flat_opened (dir_path name : string) (entry : node)
    (descend : trace) :
  opened (fst (scan_entry cwd root dir_path suffix false name entry
                 descend)) = [].
Proof.
  unfold scan_entry.
  destruct (negb (hidden name) && is_file entry); [| reflexivity].
  destruct (os_path_relpath _ _ _) as [rel |]; [| reflexivity].
  destruct (is_None suffix); [reflexivity |].
  now destruct (str_endswith rel suffix) as [[|] |].
Qed.

(** Without recursion the only directory opened is the one given. *)
Lemma _scandir_flat_opened (dir_path : string) (n : node) :
  opened (fst (_scandir cwd root dir_path suffix false n)) = [dir_path].
Proof.
  destruct n as [| entries | why];
    [now rewrite _scandir_File | | now rewrite _scandir_Other].
  rewrite _scandir_Dir, tr_seq_event. simpl. f_equal.
  destruct (dir_path =? ""); [reflexivity |].
  apply opened_for_each_nil. intros entry _.
  apply scan_entry_flat_opened.
Qed.

Lemma concat_last (cs : list string) (name : string) (p : list string) :
  ((cs ++ [name]) ++ p)%list = (cs ++ name :: p)%list.
Proof. now rewrite <- app_assoc. Qed.

(** Soundness of the scan: a path it yields is that of a regular
    file of the tree, written with every name from the root on, whose
    own name is not hidden and which passes the filter. *)
Lemma _scandir_yields_sound (recursive : bool) (n : node) :
  forall cs y,
    wf_tree n = true ->
    Forall (fun c => valid_name c = true) cs ->
    In y (yields (fst (_scandir cwd root (os_path_join_all root cs) suffix
                         recursive n))) ->
    exists p,
      In p (files_under n) /\ p <> []
      /\ hidden (basename p) = false
      /\ y = String.concat "/" (cs ++ p)
      /\ (suffix = PNone \/ str_endswith y suffix = Ok true).
Proof.
  induction n as [| entries IH | why] using node_ind';
    intros cs y Hwf Hcs Hy;
    [rewrite _scandir_File in Hy; contradiction
    | | rewrite _scandir_Other in Hy; contradiction].
  - rewrite _scandir_Dir, tr_seq_event in Hy. simpl in Hy.
    destruct (os_path_join_all root cs =? ""); [contradiction |].
    apply yields_for_each in Hy. destruct Hy as [entry [Hin Hy]].
    destruct (wf_tree_entry entries entry Hwf Hin) as [Hname Hsub].
    apply scan_entry_yields in Hy; [| assumption | assumption].
    destruct Hy as [[Hy [Hh [Hfile Hsuf]]] | [_ Hy]].
    + exists [fst entry]. repeat split; try assumption; [| discriminate].
      apply files_under_entry with (entry := entry); [exact Hin |].
      rewrite Hfile. now left.
    + rewrite Forall_forall in IH. rewrite os_path_join_all_snoc in Hy.
      apply (IH entry Hin) in Hy;
        [| assumption
         | apply Forall_app; split; [assumption | now constructor]].
      destruct Hy as [p [Hp [Hne [Hh [Hy Hsuf]]]]].
      exists (fst entry :: p). repeat split; try assumption.
      * now apply files_under_entry.
      * discriminate.
      * destruct p; [contradiction | exact Hh].
      * now rewrite <- concat_last.
Qed.

End ScannerFacts.

(* ================================================================= *)
(** * The scanner's contract *)

Lemma scandir_generator (cwd s : string) (dir_path suffix : pyval)
    (recursive : bool) (g : generator) :
  dir_path = PStr s \/ dir_path = PPath s ->
  scandir cwd dir_path suffix recursive = Ok g ->
  g = _scandir cwd s s suffix recursive.
Proof.
  intros [-> | ->]; simpl;
    destruct (negb (is_None suffix) && negb (is_str_or_tuple suffix));
    congruence.
Qed.

(** C6: without recursion the generator opens the given directory and
    nothing else, and every path it yields is the name of a regular
    file that is an immediate entry of the directory, a name with no
    separator in it: a directory entry is neither yielded nor entered. *)
Theorem scandir_without_recursion :
  forall (cwd s : string) (dir_path suffix : pyval) (g : generator)
         (entries : list (string * node)),
    startswith cwd "/" = true ->
    Forall (fun entry => valid_name (fst entry) = true) entries ->
    dir_path = PStr s \/ dir_path = PPath s ->
    scandir cwd dir_path suffix false = Ok g ->
    opened (fst (g (Dir entries))) = [s]
    /\ Forall (fun y => has_sep y = false /\ In (y, File) entries)
         (yields (fst (g (Dir entries)))).
Proof.
  intros cwd s dir_path suffix g entries Hcwd Hnames Hpath Hscan.
  rewrite (scandir_generator cwd s dir_path suffix false g Hpath Hscan).
  split; [apply _scandir_flat_opened |].
  apply Forall_forall. intros y Hy.
  rewrite _scandir_Dir, tr_seq_event in Hy. simpl in Hy.
  destruct (s =? ""); [contradiction |].
  apply yields_for_each in Hy. destruct Hy as [[name sub] [Hin Hy]].
  rewrite Forall_forall in Hnames. pose proof (Hnames _ Hin) as Hname.
  simpl in Hname, Hy.
  apply (scan_entry_yields cwd Hcwd s suffix [] false) in Hy;
    [| constructor | exact Hname].
  destruct Hy as [[Hy [_ [Hfile _]]] | [Hrec _]]; [| discriminate Hrec].
  simpl in Hy. subst y sub. split; [| exact Hin].
  now destruct (valid_name_parts name Hname) as [_ [Hsep _]].
Qed.

Lemma scandir_without_recursion_witness :
  opened (fst (_scandir "/" "/data/imgs" "/data/imgs" PNone false
                 (Dir gallery_entries))) = ["/data/imgs"]
  /\ Forall (fun y => has_sep y = false /\ In (y, File) gallery_entries)
       (yields (fst (_scandir "/" "/data/imgs" "/data/imgs" PNone false
                       (Dir gallery_entries)))).
Proof.
  apply (scandir_without_recursion "/" "/data/imgs" (PStr "/data/imgs")
           PNone (_scandir "/" "/data/imgs" "/data/imgs" PNone false)
           gallery_entries).
  - reflexivity.
  - repeat constructor.
  - left. reflexivity.
  - reflexivity.
Defined.

Example scandir_without_recursion_example :
  _scandir "/" "/data/imgs" "/data/imgs" PNone false (Dir gallery_entries)
  = ([EvScandir "/data/imgs"; EvYield "a.png"; EvYield "notes.txt"], Done).
Proof. reflexivity. Qed.

Lemma startswith_append (s x : string) : startswith (s ++ x) s = true.
Proof.
  induction s as [| c s IH]; [now destruct x |].
  simpl. now rewrite Ascii.eqb_refl, IH.
Qed.

(** [os.path.join(path, v)] starts with [path] when [v] is relative. *)
Lemma os_path_join_prefix (path v : string) :
  startswith v "/" = false -> startswith (os_path_join path v) path = true.
Proof.
  intros Hv. unfold os_path_join. rewrite Hv.
  destruct ((path =? "") || endswith path "/"); apply startswith_append.
Qed.

Lemma concat_names_relative (p : list string) :
  p <> [] -> Forall (fun c => valid_name c = true) p ->
  startswith (String.concat "/" p) "/" = false.
Proof.
  intros Hne Hall. destruct p as [| c rest]; [contradiction |].
  inversion Hall as [| ? ? Hc Hrest]; subst.
  pose proof (valid_name_not_absolute c Hc) as Hrel.
  destruct rest as [| c' rest]; [exact Hrel |].
  change (String.concat "/" (c :: c' :: rest))
    with (c ++ String slash (String.concat "/" (c' :: rest))).
  rewrite startswith_app; [exact Hrel |].
  destruct (valid_name_parts c Hc) as [Hnonempty _].
  intros ->. discriminate Hnonempty.
Qed.

(** What [scan_folder] makes of a scan that ran to its end: it fails
    with [AssertionError] if the scan found no file, and otherwise
    returns a list that is not empty, holds [os.path.join(path, v)]
    for each [v] found, and whose every entry starts with [path]. A
    scan that raises is not covered. *)
Lemma scan_folder_empty_or_prefixed :
  forall (cwd s : string) (path : pyval) (fs : node) (g : generator)
         (found : list string),
    startswith cwd "/" = true ->
    wf_tree fs = true ->
    path = PStr s \/ path = PPath s ->
    scandir cwd (PStr s) (PTuple (map PStr IMG_EXTENSIONS)) true = Ok g ->
    list_of (g fs) = Ok found ->
    (found = [] -> snd (scan_folder cwd path fs) = Raise AssertionError)
    /\ (found <> [] ->
        exists samples,
          snd (scan_folder cwd path fs) = Ok samples
          /\ samples <> []
          /\ samples = map (os_path_join s) found
          /\ Forall (fun p => startswith p s = true) samples).
Proof.
  intros cwd s path fs g found Hcwd Hwf Hpath Hscan Hfound.
  assert (Hsf : snd (scan_folder cwd path fs)
                = match map (os_path_join s) found with
                  | [] => Raise AssertionError
                  | x :: l => Ok (x :: l)
                  end).
  { destruct Hpath as [-> | ->]; unfold scan_folder; rewrite Hscan;
      cbn [snd]; rewrite Hfound; cbn [bind];
      now destruct (map (os_path_join s) found). }
  rewrite Hsf. split.
  - intros ->. reflexivity.
  - intros Hne. destruct found as [| y found']; [contradiction |].
    exists (map (os_path_join s) (y :: found')).
    split; [reflexivity |]. split; [discriminate |].
    split; [reflexivity |].
    apply Forall_forall. intros p Hp. apply in_map_iff in Hp.
    destruct Hp as [v [<- Hv]]. apply os_path_join_prefix.
    rewrite (scandir_generator cwd s (PStr s) _ true g
               (or_introl eq_refl) Hscan) in Hfound.
    unfold list_of in Hfound.
    destruct (snd (_scandir cwd s s _ true fs)); [| discriminate].
    injection Hfound as Hfound. rewrite <- Hfound in Hv.
    apply (_scandir_yields_sound cwd Hcwd s _ true fs []) in Hv;
      [| exact Hwf | constructor].
    destruct Hv as [p [Hp [Hpne [_ [-> _]]]]]. simpl.
    apply concat_names_relative; [exact Hpne |].
    exact (files_under_valid fs Hwf p Hp).
Qed.

Example scan_folder_gallery :
  scan_folder "/" (PStr "/data/imgs") (Dir gallery_entries)
  = (["/data/imgs"; "/data/imgs/sub"; "/data/imgs/sub/deep"],
     Ok ["/data/imgs/a.png"; "/data/imgs/sub/c.jpg";
         "/data/imgs/sub/deep/e.bmp"]).
Proof. reflexivity. Qed.

Example scan_folder_no_image :
  scan_folder "/" (PPath "/data/docs")
    (Dir [("notes.txt", File); ("old", Dir [("readme.md", File)])])
  = (["/data/docs"; "/data/docs/old"], Raise AssertionError).
Proof. reflexivity. Qed.

(** C9: an argument that is neither a string nor a [Path] makes
    [scandir] raise [TypeError] at the call, where no generator exists
    yet, and makes [scan_folder] raise it having opened no directory,
    whatever the filesystem holds. *)
Theorem type_error_before_io :
  forall (cwd : string) (v : pyval),
    is_str_or_Path v = false ->
    (forall suffix recursive,
        scandir cwd v suffix recursive = Raise TypeError)
    /\ (forall fs, scan_folder cwd v fs = ([], Raise TypeError)).
Proof.
  intros cwd v Hv. split.
  - intros suffix recursive. destruct v; try reflexivity; discriminate Hv.
  - intros fs. destruct v; try reflexivity; discriminate Hv.
Qed.

Lemma type_error_before_io_witness :
  (forall suffix recursive,
      scandir "/" (PInt 3) suffix recursive = Raise TypeError)
  /\ (forall fs, scan_folder "/" (PInt 3) fs = ([], Raise TypeError)).
Proof.
  apply (type_error_before_io "/" (PInt 3)). reflexivity.
Defined.

(** The suffix check comes second and is as early: a generator is
    returned only for an accepted suffix. *)
Lemma scandir_suffix_check (cwd s : string) (suffix : pyval)
    (recursive : bool) :
  scandir cwd (PStr s) suffix recursive
  = if is_None suffix || is_str_or_tuple suffix
    then Ok (_scandir cwd s s suffix recursive)
    else Raise TypeError.
Proof. destruct suffix; reflexivity. Qed.

(** C5, as stated, fails on a set of strings: the specification counts
    it among the accepted filters, the scanner raises [TypeError]. *)
Lemma scandir_rejects_set_of_strings :
  spec_accepts_suffix (PSet [PStr ".png"; PStr ".jpg"]) = true
  /\ scandir "/" (PStr "/data/imgs") (PSet [PStr ".png"; PStr ".jpg"]) false
     = Raise TypeError.
Proof. split; reflexivity. Qed.

(** C5, amended: the scanner accepts as suffix filter an absent value,
    a string or a tuple, and nothing else: any other type, a set
    included, raises [TypeError] at the call. *)
Theorem scandir_suffix_types :
  forall (cwd s : string) (suffix : pyval) (recursive : bool),
    ((suffix = PNone \/ (exists p, suffix = PStr p)
      \/ (exists items, suffix = PTuple items)) ->
     scandir cwd (PStr s) suffix recursive
     = Ok (_scandir cwd s s suffix recursive)
     /\ scandir cwd (PPath s) suffix recursive
        = Ok (_scandir cwd s s suffix recursive))
    /\ (~ (suffix = PNone \/ (exists p, suffix = PStr p)
           \/ (exists items, suffix = PTuple items)) ->
        scandir cwd (PStr s) suffix recursive = Raise TypeError
        /\ scandir cwd (PPath s) suffix recursive = Raise TypeError).
Proof.
  intros cwd s suffix recursive. split.
  - intros [-> | [[p ->] | [items ->]]]; split; reflexivity.
  - intros Hnot. destruct suffix; try (split; reflexivity);
      exfalso; apply Hnot; eauto.
Qed.

(* ================================================================= *)
(** * Hidden entries *)

(** X7: the part of the hidden-entry rule that holds on every tree:
    a yielded path is the path of a regular file of the tree, written
    with the names that lead to it, and the file's own name is not
    hidden. *)
Lemma scandir_never_yields_hidden_name :
  forall (cwd s : string) (suffix : pyval) (recursive : bool) (fs : node)
         (y : string),
    startswith cwd "/" = true ->
    wf_tree fs = true ->
    In y (yields (fst (_scandir cwd s s suffix recursive fs))) ->
    exists p,
      In p (files_under fs) /\ y = String.concat "/" p
      /\ hidden (basename p) = false.
Proof.
  intros cwd s suffix recursive fs y Hcwd Hwf Hy.
  apply (_scandir_yields_sound cwd Hcwd s suffix recursive fs []) in Hy;
    [| exact Hwf | constructor].
  destruct Hy as [p [Hp [_ [Hh [Hy _]]]]]. now exists p.
Qed.

(** X8: a hidden regular file among the entries of the scanned
    directory keeps the recursive scan from ending normally, whatever
    the filter and the other entries: the loop hands the file to
    [_scandir], which opens it as a directory. *)
Lemma scandir_recursive_hidden_file_raises :
  forall (cwd s : string) (suffix : pyval) (entries : list (string * node))
         (name : string),
    In (name, File) entries -> hidden name = true ->
    snd (_scandir cwd s s suffix true (Dir entries)) <> Done.
Proof.
  intros cwd s suffix entries name Hin Hh.
  rewrite _scandir_Dir, tr_seq_event. cbn [snd].
  destruct (s =? ""); [discriminate |].
  induction entries as [| entry entries IH]; [contradiction |].
  simpl. unfold tr_seq.
  destruct (snd (scan_entry cwd s s suffix true (fst entry) (snd entry) _))
    eqn:Hbody; [| now rewrite Hbody].
  cbn [snd]. destruct Hin as [-> | Hin]; [| now apply IH].
  unfold scan_entry in Hbody. cbn [fst snd] in Hbody.
  rewrite Hh in Hbody. cbn [negb andb] in Hbody.
  rewrite _scandir_File in Hbody. discriminate Hbody.
Qed.

(** C1: the recursive scan of a folder that holds the hidden directory
    [.git] opens that directory and yields the file inside it, and the
    recursive scan of a folder that holds the hidden regular file
    [.gitignore] opens that file as a directory and raises; the claim
    has hidden entries skipped, files and directories alike. *)
Theorem scandir_recursive_enters_hidden_entries :
  exists g,
    scandir "/" (PStr "/repo") PNone true = Ok g
    /\ g (Dir checkout_entries)
       = ([EvScandir "/repo"; EvScandir "/repo/.git"; EvYield ".git/x.png";
           EvYield "a.png"], Done)
    /\ g (Dir dotfile_entries)
       = ([EvScandir "/repo"; EvYield "a.png";
           EvScandir "/repo/.gitignore"], Raised NotADirectoryError).
Proof. eexists. repeat split; reflexivity. Qed.

(** Without recursion the same folder is scanned as the claim says. *)
Example scandir_flat_skips_hidden_directory :
  _scandir "/" "/repo" "/repo" PNone false (Dir checkout_entries)
  = ([EvScandir "/repo"; EvYield "a.png"], Done).
Proof. reflexivity. Qed.

(** C2: on the scenario's folder [scan_folder] returns no list: in
    whatever order the filesystem lists the four entries, the scan
    reaches the regular file [.hidden.png], opens it as a directory and
    raises [NotADirectoryError]. *)
Theorem scan_folder_scenario_raises :
  forall entries : list (string * node),
    Permutation scenario_entries entries ->
    snd (scan_folder "/" (PStr "/data/imgs") (Dir entries))
    = Raise NotADirectoryError.
Proof.
  intros entries Hperm.
  assert (Hraised :
            snd (_scandir "/" "/data/imgs" "/data/imgs"
                   (PTuple (map PStr IMG_EXTENSIONS)) true (Dir entries))
            = Raised NotADirectoryError).
  { rewrite _scandir_Dir, tr_seq_event. cbn [snd].
    change ("/data/imgs" =? "") with false. cbv iota.
    apply for_each_raises.
    - intros x Hx. apply (Permutation_in _ (Permutation_sym Hperm)) in Hx.
      destruct Hx as [<- | [<- | [<- | [<- | []]]]];
        vm_compute; auto.
    - exists (".hidden.png", File). split; [| reflexivity].
      apply (Permutation_in _ Hperm). simpl. auto. }
  unfold scan_folder. rewrite scandir_suffix_check.
  cbn [is_None is_str_or_tuple orb snd]. unfold list_of.
  now rewrite Hraised.
Qed.

Lemma scan_folder_scenario_raises_witness :
  snd (scan_folder "/" (PStr "/data/imgs") (Dir scenario_entries))
  = Raise NotADirectoryError.
Proof.
  apply (scan_folder_scenario_raises scenario_entries).
  apply Permutation_refl.
Defined.

Example scan_folder_scenario_trace :
  scan_folder "/" (PStr "/data/imgs") (Dir scenario_entries)
  = (["/data/imgs"; "/data/imgs/.hidden.png"], Raise NotADirectoryError).
Proof. reflexivity. Qed.

(** C3: on a folder that holds the hidden regular file [.DS_Store]
    before [a.png], the recursive scan raises on the hidden file and
    yields nothing, though [a.png] is a regular file that is not
    hidden. *)
Theorem scandir_recursive_stops_at_hidden_file :
  files_under (Dir desktop_entries) = [[".DS_Store"]; ["a.png"]]
  /\ exists g,
       scandir "/" (PStr "/home/u/Desktop") PNone true = Ok g
       /\ g (Dir desktop_entries)
          = ([EvScandir "/home/u/Desktop";
              EvScandir "/home/u/Desktop/.DS_Store"],
             Raised NotADirectoryError).
Proof. split; [reflexivity | eexists; split; reflexivity]. Qed.

(* ================================================================= *)
(** * The recursive scan where no regular file is hidden *)

Section RecursiveScan.

Variable cwd : string.
Hypothesis cwd_absolute : startswith cwd "/" = true.

Variable root : string.

Variable suffix : pyval.
Hypothesis suffix_typed : typed_suffix suffix = true.

Lemma endswith_any_typed (y : string) (items : list pyval) :
  forallb is_str items = true -> exists b, endswith_any y items = Ok b.
Proof.
  induction items as [| item items IH]; intros Hall; [now exists false |].
  simpl in Hall. apply andb_true_iff in Hall. destruct Hall as [Hitem Hrest].
  destruct item; try discriminate Hitem. simpl.
  destruct (endswith y s); [now exists true | now apply IH].
Qed.

(** The test of a typed filter does not raise. *)
Lemma str_endswith_typed (y : string) :
  is_None suffix = false -> str_endswith y suffix = Ok (passes suffix y).
Proof.
  intros Hnone. unfold passes. rewrite Hnone. simpl orb.
  destruct suffix; try discriminate; [reflexivity |].
  destruct (endswith_any_typed y items suffix_typed) as [b Hb].
  simpl. now rewrite Hb.
Qed.

Lemma for_each_yields_done {A : Type} (body : A -> trace)
    (f : A -> list string) (l : list A) :
  (forall x, In x l ->
             snd (body x) = Done /\ yields (fst (body x)) = f x) ->
  snd (for_each body l) = Done
  /\ yields (fst (for_each body l)) = flat_map f l.
Proof.
  induction l as [| x l IH]; intros Hall; [split; reflexivity |].
  destruct (Hall x (or_introl eq_refl)) as [Hdone Hyields].
  destruct IH as [IHdone IHyields];
    [intros x' Hx'; apply Hall; now right |].
  simpl. unfold tr_seq. rewrite Hdone. simpl.
  split; [exact IHdone |].
  now rewrite yields_app, Hyields, IHyields.
Qed.

Lemma filter_map_flat_map {A B C : Type} (keep : C -> bool) (g : B -> C)
    (h : A -> list B) (l : list A) :
  filter keep (map g (flat_map h l))
  = flat_map (fun x => filter keep (map g (h x))) l.
Proof.
  induction l as [| x l IH]; [reflexivity |].
  simpl. now rewrite map_app, filter_app, IH.
Qed.

Lemma no_hidden_file_entry (entries : list (string * node))
    (entry : string * node) :
  no_hidden_file (Dir entries) = true -> In entry entries ->
  hidden (fst entry) && is_file (snd entry) = false
  /\ no_hidden_file (snd entry) = true.
Proof.
  simpl. rewrite forallb_forall. intros Hall Hin.
  specialize (Hall entry Hin). apply andb_true_iff in Hall.
  destruct Hall as [Hh Hsub]. apply negb_true_iff in Hh. now split.
Qed.

Lemma all_listable_entry (entries : list (string * node))
    (entry : string * node) :
  all_listable (Dir entries) = true -> In entry entries ->
  all_listable (snd entry) = true.
Proof.
  simpl. rewrite forallb_forall. intros Hall Hin. exact (Hall entry Hin).
Qed.

(** The scan of a directory that holds regular files and listable
    directories only, none of the files hidden, ends normally and
    yields the path of every regular file under it that passes the
    filter, in enumeration order, each written from [root] on. *)
Lemma _scandir_recursive_complete (n : node) :
  forall cs entries,
    n = Dir entries ->
    wf_tree n = true ->
    no_hidden_file n = true ->
    all_listable n = true ->
    Forall (fun c => valid_name c = true) cs ->
    os_path_join_all root cs <> "" ->
    snd (_scandir cwd root (os_path_join_all root cs) suffix true n) = Done
    /\ yields (fst (_scandir cwd root (os_path_join_all root cs) suffix
                      true n))
       = filter (passes suffix)
           (map (fun p => String.concat "/" (cs ++ p)) (files_under n)).
Proof.
  induction n as [| entries0 IH | why] using node_ind';
    intros cs entries Hn Hwf Hnh Hls Hcs Hdir;
    [discriminate | | discriminate].
  clear Hn entries. rename entries0 into entries.
  rewrite _scandir_Dir, tr_seq_event. cbn [fst snd yields].
  apply String.eqb_neq in Hdir. rewrite Hdir.
  simpl files_under. rewrite filter_map_flat_map.
  apply for_each_yields_done. intros entry Hin.
  destruct (wf_tree_entry entries entry Hwf Hin) as [Hname Hsub].
  destruct (no_hidden_file_entry entries entry Hnh Hin) as [Hh Hnhsub].
  pose proof (all_listable_entry entries entry Hls Hin) as Hlsub.
  rewrite (scan_entry_under_root cwd cwd_absolute root suffix cs)
    by assumption.
  cbv zeta.
  destruct (snd entry) as [| sub | why] eqn:Hentry;
    [ | | discriminate Hlsub].
  - cbn [is_file] in Hh |- *. rewrite andb_true_r in Hh |- *.
    rewrite Hh. cbn [negb files_under map filter].
    destruct (is_None suffix) eqn:Hnone.
    + unfold passes. rewrite Hnone. split; reflexivity.
    + rewrite (str_endswith_typed _ Hnone).
      destruct (passes suffix _); split; reflexivity.
  - cbn [is_file]. rewrite andb_false_r.
    rewrite Forall_forall in IH. specialize (IH entry Hin).
    rewrite Hentry in IH.
    rewrite os_path_join_all_snoc.
    destruct (IH (cs ++ [fst entry])%list sub eq_refl Hsub Hnhsub Hlsub)
      as [Hdone Hyields].
    + apply Forall_app. split; [assumption | now constructor].
    + rewrite <- os_path_join_all_snoc.
      now apply os_path_join_name_nonempty.
    + split; [exact Hdone |]. rewrite Hyields, map_map. f_equal.
      apply map_ext. intros p. now rewrite <- app_assoc.
Qed.

Lemma distinct_NoDup (names : list string) :
  distinct names = true -> NoDup names.
Proof.
  induction names as [| x names IH]; intros H; [constructor |].
  simpl in H. apply andb_true_iff in H. destruct H as [Hx Hrest].
  constructor; [| now apply IH].
  intros Hin. apply negb_true_iff in Hx.
  assert (Hex : existsb (String.eqb x) names = true)
    by (apply existsb_exists; exists x; split;
        [exact Hin | apply String.eqb_refl]).
  congruence.
Qed.

Lemma NoDup_under_names {X : Type} (f : X -> list (list string))
    (l : list (string * X)) :
  NoDup (map fst l) ->
  (forall entry, In entry l -> NoDup (f (snd entry))) ->
  NoDup (flat_map (fun entry => map (cons (fst entry)) (f (snd entry))) l).
Proof.
  induction l as [| [name x] l IH]; intros Hnames Hsubs; [constructor |].
  inversion Hnames as [| ? ? Hnotin Hnames']; subst.
  simpl. apply NoDup_app.
  - apply NoDup_map_NoDup_ForallPairs;
      [intros p q _ _ Heq; now inversion Heq |].
    apply (Hsubs (name, x)). now left.
  - apply IH; [assumption |].
    intros entry Hentry. apply Hsubs. now right.
  - intros p Hp Hq. apply in_map_iff in Hp.
    destruct Hp as [p' [<- _]]. apply in_flat_map in Hq.
    destruct Hq as [entry [Hentry Hq]]. apply in_map_iff in Hq.
    destruct Hq as [q' [Heq _]]. inversion Heq as [[Hname Hq']].
    apply Hnotin. rewrite <- Hname. now apply in_map.
Qed.

(** Under distinct names no regular file is listed twice. *)
Lemma files_under_NoDup (n : node) :
  unique_names n = true -> NoDup (files_under n).
Proof.
  induction n as [| entries IH | why] using node_ind'; intros Hu.
  - repeat constructor. intros [].
  - simpl in Hu. apply andb_true_iff in Hu. destruct Hu as [Hd Hsubs].
    apply distinct_NoDup in Hd. rewrite forallb_forall in Hsubs.
    rewrite Forall_forall in IH.
    simpl. apply NoDup_under_names; [exact Hd |].
    intros entry Hentry. apply IH; [exact Hentry | now apply Hsubs].
  - constructor.
Qed.

Lemma valid_name_component (c : string) :
  valid_name c = true -> component_ok c.
Proof.
  intros Hc. destruct (valid_name_parts c Hc) as [Hne [Hsep _]].
  now split.
Qed.

(** Distinct lists of names are written as distinct paths. *)
Lemma concat_names_injective (p q : list string) :
  Forall (fun c => valid_name c = true) p ->
  Forall (fun c => valid_name c = true) q ->
  String.concat "/" p = String.concat "/" q -> p = q.
Proof.
  intros Hp Hq Heq.
  rewrite <- (components_concat p), <- (components_concat q), Heq;
    [reflexivity | |];
    eapply Forall_impl; try eassumption; apply valid_name_component.
Qed.

End RecursiveScan.

(** The recursive scan of a directory tree made of regular files and
    listable directories only, none of the files hidden, under a
    filter that is absent, a string or a tuple of strings: it ends
    normally and yields, in enumeration order, the path from the
    scanned directory of every regular file under it that passes the
    filter; and no path twice when names are distinct within each
    directory. *)
Lemma scandir_recursive_filtered :
  forall (cwd s : string) (suffix : pyval) (entries : list (string * node)),
    startswith cwd "/" = true ->
    s <> "" ->
    typed_suffix suffix = true ->
    wf_tree (Dir entries) = true ->
    no_hidden_file (Dir entries) = true ->
    all_listable (Dir entries) = true ->
    snd (_scandir cwd s s suffix true (Dir entries)) = Done
    /\ yields (fst (_scandir cwd s s suffix true (Dir entries)))
       = filter (passes suffix)
           (map (String.concat "/") (files_under (Dir entries)))
    /\ (unique_names (Dir entries) = true ->
        NoDup (yields (fst (_scandir cwd s s suffix true (Dir entries))))).
Proof.
  intros cwd s suffix entries Hcwd Hs Htyped Hwf Hnh Hls.
  destruct (_scandir_recursive_complete cwd Hcwd s suffix Htyped
              (Dir entries) [] entries eq_refl Hwf Hnh Hls (Forall_nil _)
              Hs)
    as [Hdone Hyields].
  simpl os_path_join_all in Hdone, Hyields. simpl app in Hyields.
  split; [exact Hdone | split].
  - rewrite Hyields. f_equal.
  - intros Hu. rewrite Hyields. apply NoDup_filter.
    apply NoDup_map_NoDup_ForallPairs; [| now apply files_under_NoDup].
    intros p q Hp Hq Heq.
    apply concat_names_injective;
      [exact (files_under_valid _ Hwf p Hp)
      | exact (files_under_valid _ Hwf q Hq)
      | exact Heq].
Qed.

(** X9: on a directory tree made of regular files and listable
    directories only (no dangling link, FIFO, socket, device or
    unreadable directory), none of the files hidden, the recursive
    scan without a suffix filter ends normally and yields every
    regular file under the directory, at any depth, by its path from
    the directory given to [scandir]; and exactly once when names are
    distinct within each directory. *)
Lemma scandir_recursive_complete :
  forall (cwd s : string) (entries : list (string * node)),
    startswith cwd "/" = true ->
    s <> "" ->
    wf_tree (Dir entries) = true ->
    no_hidden_file (Dir entries) = true ->
    all_listable (Dir entries) = true ->
    snd (_scandir cwd s s PNone true (Dir entries)) = Done
    /\ yields (fst (_scandir cwd s s PNone true (Dir entries)))
       = map (String.concat "/") (files_under (Dir entries))
    /\ (unique_names (Dir entries) = true ->
        NoDup (yields (fst (_scandir cwd s s PNone true (Dir entries))))).
Proof.
  intros cwd s entries Hcwd Hs Hwf Hnh Hls.
  destruct (scandir_recursive_filtered cwd s PNone entries Hcwd Hs eq_refl
              Hwf Hnh Hls) as [Hdone [Hyields Hnodup]].
  split; [exact Hdone | split; [| exact Hnodup]].
  rewrite Hyields. apply forallb_filter_id. apply forallb_forall.
  reflexivity.
Qed.

Example scandir_recursive_gallery :
  _scandir "/" "/data/imgs" "/data/imgs" PNone true (Dir gallery_entries)
  = ([EvScandir "/data/imgs"; EvYield "a.png"; EvYield "notes.txt";
      EvScandir "/data/imgs/sub"; EvYield "sub/c.jpg";
      EvScandir "/data/imgs/sub/deep"; EvYield "sub/deep/e.bmp"], Done).
Proof. reflexivity. Qed.

(** X10: [scan_folder] on a directory tree made of regular files and
    listable directories only (no dangling link, FIFO, socket, device
    or unreadable directory), none of the files hidden: the assertion
    fails exactly when no regular file under the directory ends with
    an image suffix; otherwise every such file is returned, joined to
    [path]. *)
Lemma scan_folder_on_tree :
  forall (cwd s : string) (path : pyval) (entries : list (string * node)),
    startswith cwd "/" = true ->
    s <> "" ->
    path = PStr s \/ path = PPath s ->
    wf_tree (Dir entries) = true ->
    no_hidden_file (Dir entries) = true ->
    all_listable (Dir entries) = true ->
    snd (scan_folder cwd path (Dir entries))
    = match filter (passes (PTuple (map PStr IMG_EXTENSIONS)))
              (map (String.concat "/") (files_under (Dir entries))) with
      | [] => Raise AssertionError
      | v :: found =>
          Ok (os_path_join s v :: map (os_path_join s) found)
      end.
Proof.
  intros cwd s path entries Hcwd Hs Hpath Hwf Hnh Hls.
  destruct (scandir_recursive_filtered cwd s
              (PTuple (map PStr IMG_EXTENSIONS)) entries Hcwd Hs eq_refl
              Hwf Hnh Hls) as [Hdone [Hyields _]].
  destruct Hpath as [-> | ->]; unfold scan_folder;
    rewrite scandir_suffix_check;
    cbn [is_None is_str_or_tuple orb snd]; unfold list_of;
    rewrite Hdone, Hyields; cbn [bind];
    now destruct (filter _ _).
Qed.

(* ================================================================= *)
(** * Properties of BaseDataset *)

Section DatasetFacts.

Context {Data : Type}.

Lemma list_getitem_nonneg (l : list Data) (i : Z) :
  (0 <= i < Z.of_nat (length l))%Z ->
  exists a, nth_error l (Z.to_nat i) = Some a /\ list_getitem l i = Ok a.
Proof.
  intros Hi. unfold list_getitem.
  destruct (Z.ltb_spec i 0) as [Hneg | _]; [lia |].
  destruct (Z.ltb_spec i 0) as [Hneg | _]; [lia |].
  destruct (Z.leb_spec (Z.of_nat (length l)) i) as [Hbig | _]; [lia |].
  simpl. destruct (nth_error l (Z.to_nat i)) as [a |] eqn:Hnth.
  - exists a. split; reflexivity.
  - apply nth_error_None in Hnth. lia.
Qed.

Lemma list_getitem_negative (l : list Data) (i : Z) :
  (- Z.of_nat (length l) <= i < 0)%Z ->
  list_getitem l i = list_getitem l (Z.of_nat (length l) + i).
Proof.
  intros Hi. unfold list_getitem.
  destruct (Z.ltb_spec i 0) as [_ | Hpos]; [| lia].
  destruct (Z.ltb_spec (Z.of_nat (length l) + i) 0) as [Hneg | _]; [lia |].
  replace (i + Z.of_nat (length l))%Z with (Z.of_nat (length l) + i)%Z by lia.
  reflexivity.
Qed.

Lemma list_getitem_out_of_range (l : list Data) (i : Z) :
  (i < - Z.of_nat (length l) \/ Z.of_nat (length l) <= i)%Z ->
  list_getitem l i = Raise IndexError.
Proof.
  intros Hi. unfold list_getitem.
  destruct (Z.ltb_spec i 0) as [Hneg | Hpos].
  - destruct (Z.ltb_spec (i + Z.of_nat (length l)) 0) as [_ | Hge];
      [reflexivity | lia].
  - destruct (Z.ltb_spec i 0) as [Hneg | _]; [lia |].
    destruct (Z.leb_spec (Z.of_nat (length l)) i) as [_ | Hlt];
      [reflexivity | lia].
Qed.

Lemma getitem_unfold (ds : BaseDataset Data) (anns : list Data) (i : Z) :
  annotations ds = Value anns ->
  __getitem__ ds i =
  (a <- list_getitem anns i ;;
   Ok (apply_if_present (transforms ds)
         (apply_if_present (load_pipeline ds) a))).
Proof.
  intros Hanns. unfold __getitem__, annotations_getitem.
  rewrite Hanns. reflexivity.
Qed.

End DatasetFacts.

(** C4: with a load pipeline and a transform pipeline both present (and
    true as objects, which is what [__getitem__] tests), the sample at
    a valid index is [transforms(load_pipeline(annotations[i]))]: the
    load pipeline is applied first. *)
Theorem getitem_load_then_transform :
  forall (Data : Type) (ds : BaseDataset Data) (lp tp : Pipeline Data)
         (anns : list Data) (i : Z),
    load_pipeline ds = Some lp -> pipeline_truthy lp = true ->
    transforms ds = Some tp -> pipeline_truthy tp = true ->
    annotations ds = Value anns ->
    (0 <= i < Z.of_nat (length anns))%Z ->
    exists a,
      nth_error anns (Z.to_nat i) = Some a /\
      __getitem__ ds i = Ok (pipeline_call tp (pipeline_call lp a)).
Proof.
  intros Data ds lp tp anns i Hlp Hlt Htp Htt Hanns Hi.
  destruct (list_getitem_nonneg anns i Hi) as [a [Hnth Hget]].
  exists a. split; [exact Hnth |].
  rewrite (getitem_unfold ds anns i Hanns), Hget. simpl.
  rewrite Hlp, Htp. simpl. rewrite Hlt, Htt. reflexivity.
Qed.

Lemma getitem_load_then_transform_witness :
  exists a,
    nth_error [10; 20; 30]%Z (Z.to_nat 1) = Some a /\
    __getitem__ example_dataset 1 =
    Ok (pipeline_call (example_build_transforms [tt])
          (pipeline_call (example_build_load [tt]) a)).
Proof.
  apply (getitem_load_then_transform Z example_dataset
           (example_build_load [tt]) (example_build_transforms [tt])
           [10; 20; 30]%Z 1%Z);
    try reflexivity.
  simpl. lia.
Defined.

(** The constructor stores a pipeline exactly for a configuration that
    is true as a Python value. *)
Lemma init_load_pipeline :
  forall (Data Config : Type) (bl bt : list Config -> Pipeline Data) lc tc,
    load_pipeline (__init__ bl bt lc tc) =
    match lc with
    | Some (c :: cs) => Some (bl (c :: cs))
    | _ => None
    end.
Proof. intros. destruct lc as [[| c cs] |]; reflexivity. Qed.

Lemma init_transforms :
  forall (Data Config : Type) (bl bt : list Config -> Pipeline Data) lc tc,
    transforms (__init__ bl bt lc tc) =
    match tc with
    | Some (c :: cs) => Some (bt (c :: cs))
    | _ => None
    end.
Proof. intros. destruct tc as [[| c cs] |]; reflexivity. Qed.

(** C7: a dataset constructed without a load-pipeline configuration and
    without a transforms configuration ([None], or empty) returns the
    annotation at a valid index unchanged. *)
Theorem getitem_without_pipelines :
  forall (Data Config : Type) (bl bt : list Config -> Pipeline Data)
         (lc tc : option (list Config)) (anns : list Data) (i : Z),
    config_truthy lc = false -> config_truthy tc = false ->
    (0 <= i < Z.of_nat (length anns))%Z ->
    exists a,
      nth_error anns (Z.to_nat i) = Some a /\
      __getitem__ (set_annotations (__init__ bl bt lc tc) (Value anns)) i
      = Ok a.
Proof.
  intros Data Config bl bt lc tc anns i Hlc Htc Hi.
  destruct (list_getitem_nonneg anns i Hi) as [a [Hnth Hget]].
  exists a. split; [exact Hnth |].
  rewrite (getitem_unfold (set_annotations (__init__ bl bt lc tc) (Value anns))
             anns i eq_refl), Hget.
  unfold __init__. simpl. rewrite Hlc, Htc. reflexivity.
Qed.

Lemma getitem_without_pipelines_witness :
  exists a,
    nth_error [10; 20; 30]%Z (Z.to_nat 2) = Some a /\
    __getitem__
      (set_annotations
         (__init__ example_build_load example_build_transforms None None)
         (Value [10; 20; 30]%Z)) 2
    = Ok a.
Proof.
  apply (getitem_without_pipelines Z unit example_build_load
           example_build_transforms None None [10; 20; 30]%Z 2%Z);
    try reflexivity.
  simpl. lia.
Defined.

(** C10: a negative index within range does not raise: it selects the
    annotation at position [N + i], counting from the end, and that
    annotation goes through the pipelines the dataset has, the load
    pipeline first and the transform pipeline on its result, each one
    when it is present and true; the index [N + i] gives the same. *)
Theorem getitem_negative_index :
  forall (Data : Type) (ds : BaseDataset Data) (anns : list Data) (i : Z),
    annotations ds = Value anns ->
    (- Z.of_nat (length anns) <= i < 0)%Z ->
    exists a,
      nth_error anns (Z.to_nat (Z.of_nat (length anns) + i)) = Some a /\
      __getitem__ ds i =
      Ok (let loaded :=
            match load_pipeline ds with
            | Some lp =>
                if pipeline_truthy lp then pipeline_call lp a else a
            | None => a
            end in
          match transforms ds with
          | Some tp =>
              if pipeline_truthy tp then pipeline_call tp loaded else loaded
          | None => loaded
          end) /\
      __getitem__ ds i = __getitem__ ds (Z.of_nat (length anns) + i).
Proof.
  intros Data ds anns i Hanns Hi.
  assert (Hrange : (0 <= Z.of_nat (length anns) + i
                    < Z.of_nat (length anns))%Z) by lia.
  destruct (list_getitem_nonneg anns _ Hrange) as [a [Hnth Hget]].
  exists a. split; [exact Hnth |].
  rewrite !(getitem_unfold ds anns _ Hanns).
  rewrite (list_getitem_negative anns i Hi), Hget.
  split; [| reflexivity].
  cbn [bind]. unfold apply_if_present.
  destruct (load_pipeline ds) as [lp |], (transforms ds) as [tp |];
    reflexivity.
Qed.

Lemma getitem_negative_index_witness :
  exists a,
    nth_error [10; 20; 30]%Z (Z.to_nat (Z.of_nat 3 + -1)) = Some a /\
    __getitem__ example_dataset (-1) =
    Ok (pipeline_call (example_build_transforms [tt])
          (pipeline_call (example_build_load [tt]) a)) /\
    __getitem__ example_dataset (-1) =
    __getitem__ example_dataset (Z.of_nat 3 + -1).
Proof.
  apply (getitem_negative_index Z example_dataset [10; 20; 30]%Z (-1)%Z).
  - reflexivity.
  - simpl. lia.
Defined.

(** On the example the last sample is [(30 + 1) * 2], not [30 * 2 + 1]. *)
Example getitem_example_values :
  __getitem__ example_dataset (-1) = Ok 62%Z /\
  __getitem__ example_dataset 0 = Ok 22%Z /\
  __getitem__ example_dataset 3 = Raise IndexError /\
  __getitem__ example_dataset (-4) = Raise IndexError /\
  __len__ example_dataset = Ok 3%Z.
Proof. repeat split; reflexivity. Qed.

(* ================================================================= *)
(** * Further properties of the scanner *)

Section FilterFacts.

Variable cwd : string.
Variable root : string.
Variable suffix : pyval.

(** Whatever the tree, a yielded path passed the test of the filter. *)
Lemma _scandir_yields_pass (recursive : bool) (n : node) :
  forall dir_path y,
    In y (yields (fst (_scandir cwd root dir_path suffix recursive n))) ->
    is_None suffix = true \/ str_endswith y suffix = Ok true.
Proof.
  induction n as [| entries IH | why] using node_ind';
    intros dir_path y Hy;
    [rewrite _scandir_File in Hy; contradiction
    | | rewrite _scandir_Other in Hy; contradiction].
  - rewrite _scandir_Dir, tr_seq_event in Hy. simpl in Hy.
    destruct (dir_path =? ""); [contradiction |].
    apply yields_for_each in Hy. destruct Hy as [entry [Hin Hy]].
    unfold scan_entry in Hy.
    destruct (negb (hidden (fst entry)) && is_file (snd entry)).
    + destruct (os_path_relpath cwd _ root) as [rel |]; [| contradiction].
      destruct (is_None suffix) eqn:Hnone; [now left |].
      destruct (str_endswith rel suffix) as [[|] |] eqn:Hends;
        try contradiction.
      destruct Hy as [<- | []]. now right.
    + destruct recursive; [| contradiction].
      rewrite Forall_forall in IH. exact (IH entry Hin _ y Hy).
Qed.

Lemma endswith_any_true (y : string) (items : list pyval) :
  endswith_any y items = Ok true ->
  exists p, In (PStr p) items /\ endswith y p = true.
Proof.
  induction items as [| item items IH]; intros H; [discriminate |].
  destruct item; try discriminate H. simpl in H.
  destruct (endswith y s) eqn:Hs.
  - exists s. split; [now left | exact Hs].
  - destruct (IH H) as [p [Hin Hp]]. exists p. split; [now right | exact Hp].
Qed.

(** The scan raises what [os.scandir], [os.path.relpath] and
    [str.endswith] raise, and never [AssertionError]. *)
Lemma endswith_any_raises (y : string) (items : list pyval) (e : exn) :
  endswith_any y items = Raise e -> e = TypeError.
Proof.
  induction items as [| item items IH]; intros H; [discriminate |].
  destruct item; simpl in H; try congruence.
  destruct (endswith y s); [discriminate | now apply IH].
Qed.

Lemma for_each_raised {A : Type} (body : A -> trace) (l : list A)
    (e : exn) :
  snd (for_each body l) = Raised e ->
  exists x, In x l /\ snd (body x) = Raised e.
Proof.
  induction l as [| x l IH]; [discriminate |].
  simpl. unfold tr_seq. destruct (snd (body x)) eqn:Hx.
  - simpl. intros H. destruct (IH H) as [x' [Hin Hx']].
    exists x'. split; [now right | exact Hx'].
  - rewrite Hx. intros H. exists x. split; [now left | congruence].
Qed.

Lemma _scandir_never_asserts (recursive : bool) (n : node) :
  forall dir_path,
    snd (_scandir cwd root dir_path suffix recursive n)
    <> Raised AssertionError.
Proof.
  induction n as [| entries IH | why] using node_ind'; intros dir_path;
    [rewrite _scandir_File; now destruct (dir_path =? "")
    | | rewrite _scandir_Other; now destruct (dir_path =? ""), why].
  - rewrite _scandir_Dir, tr_seq_event. cbn [snd].
    destruct (dir_path =? ""); [discriminate |].
    intros H. apply for_each_raised in H. destruct H as [entry [Hin H]].
    unfold scan_entry in H.
    destruct (negb (hidden (fst entry)) && is_file (snd entry)).
    + unfold os_path_relpath in H.
      destruct (os_path_join dir_path (fst entry) =? ""); [discriminate |].
      cbv zeta in H.
      destruct (repeat ".." _ ++ skipn _ _)%list; simpl in H.
      * destruct (is_None suffix); [discriminate |].
        destruct (str_endswith "." suffix) as [[|] |] eqn:He;
          try discriminate.
        injection H as ->. destruct suffix; simpl in He; try discriminate.
        now apply endswith_any_raises in He.
      * destruct (is_None suffix); [discriminate |].
        destruct (str_endswith _ suffix) as [[|] |] eqn:He;
          try discriminate.
        injection H as ->. destruct suffix; simpl in He; try discriminate.
        now apply endswith_any_raises in He.
    + destruct recursive; [| discriminate].
      rewrite Forall_forall in IH. exact (IH entry Hin _ H).
Qed.

End FilterFacts.

(** X1: a path the scanner yields under a string filter ends with that
    string, and under a tuple filter with one of the strings of the
    tuple, whatever the tree and with or without recursion. *)
Theorem scandir_yields_match_suffix :
  forall (cwd : string) (dir_path suffix : pyval) (recursive : bool)
         (g : generator) (fs : node) (y : string),
    scandir cwd dir_path suffix recursive = Ok g ->
    In y (yields (fst (g fs))) ->
    (forall p, suffix = PStr p -> exists x, y = x ++ p)
    /\ (forall items, suffix = PTuple items ->
        exists p x, In (PStr p) items /\ y = x ++ p).
Proof.
  intros cwd dir_path suffix recursive g fs y Hscan Hy.
  assert (Hpass : is_None suffix = true \/ str_endswith y suffix = Ok true).
  { destruct dir_path; try discriminate Hscan;
      rewrite (scandir_generator cwd s _ suffix recursive g
                 ltac:(auto) Hscan) in Hy;
      exact (_scandir_yields_pass cwd s suffix recursive fs s y Hy). }
  split.
  - intros p ->. destruct Hpass as [Hnone | Hends]; [discriminate |].
    simpl in Hends. apply endswith_iff. congruence.
  - intros items ->. destruct Hpass as [Hnone | Hends]; [discriminate |].
    simpl in Hends. apply endswith_any_true in Hends.
    destruct Hends as [p [Hin Hp]]. apply endswith_iff in Hp.
    destruct Hp as [x Hx]. now exists p, x.
Qed.

Lemma scandir_yields_match_suffix_witness :
  (forall p, PTuple [PStr ".jpg"; PStr ".png"] = PStr p ->
             exists x, "sub/c.jpg" = x ++ p)
  /\ (forall items, PTuple [PStr ".jpg"; PStr ".png"] = PTuple items ->
      exists p x, In (PStr p) items /\ "sub/c.jpg" = x ++ p).
Proof.
  apply (scandir_yields_match_suffix "/" (PStr "/data/imgs")
           (PTuple [PStr ".jpg"; PStr ".png"]) true
           (_scandir "/" "/data/imgs" "/data/imgs"
              (PTuple [PStr ".jpg"; PStr ".png"]) true)
           (Dir gallery_entries) "sub/c.jpg").
  - reflexivity.
  - simpl. auto.
Defined.

(** X2: [scan_folder] raises [AssertionError] exactly when the scan
    ran to its end and found nothing; an exception of the scan itself
    is never an [AssertionError]. *)
Theorem scan_folder_assertion_iff :
  forall (cwd s : string) (path : pyval) (fs : node) (g : generator),
    path = PStr s \/ path = PPath s ->
    scandir cwd (PStr s) (PTuple (map PStr IMG_EXTENSIONS)) true = Ok g ->
    (snd (scan_folder cwd path fs) = Raise AssertionError
     <-> list_of (g fs) = Ok []).
Proof.
  intros cwd s path fs g Hpath Hscan.
  assert (Hsf : snd (scan_folder cwd path fs)
                = (samples <- list_of (g fs) ;;
                   match map (os_path_join s) samples with
                   | [] => Raise AssertionError
                   | x :: l => Ok (x :: l)
                   end)).
  { destruct Hpath as [-> | ->]; unfold scan_folder; rewrite Hscan;
      cbn [snd]; destruct (list_of (g fs)) as [found |]; cbn [bind];
      [now destruct (map (os_path_join s) found) | reflexivity |
       now destruct (map (os_path_join s) found) | reflexivity]. }
  rewrite Hsf.
  rewrite (scandir_generator cwd s (PStr s) _ true g
             (or_introl eq_refl) Hscan).
  unfold list_of.
  destruct (snd (_scandir cwd s s (PTuple (map PStr IMG_EXTENSIONS)) true fs))
    as [| e] eqn:Hout; cbn [bind].
  - destruct (yields _) as [| y found]; [split; reflexivity |].
    split; discriminate.
  - split; [| discriminate]. intros H. injection H as ->.
    now apply _scandir_never_asserts in Hout.
Qed.

Lemma scan_folder_assertion_iff_witness :
  snd (scan_folder "/" (PStr "/data/imgs")
         (Dir [("notes.txt", File); (".DS_Store", File)]))
  = Raise AssertionError
  <-> list_of (_scandir "/" "/data/imgs" "/data/imgs"
                 (PTuple (map PStr IMG_EXTENSIONS)) true
                 (Dir [("notes.txt", File); (".DS_Store", File)]))
      = Ok [].
Proof.
  apply (scan_folder_assertion_iff "/" "/data/imgs" (PStr "/data/imgs")
           (Dir [("notes.txt", File); (".DS_Store", File)])
           (_scandir "/" "/data/imgs" "/data/imgs"
              (PTuple (map PStr IMG_EXTENSIONS)) true)).
  - left. reflexivity.
  - reflexivity.
Defined.

(* ================================================================= *)
(** * scan_folder on a folder with a hidden regular file *)

Lemma for_each_not_done {A : Type} (body : A -> trace) (l : list A)
    (x : A) :
  In x l -> snd (body x) <> Done -> snd (for_each body l) <> Done.
Proof.
  induction l as [| x' l IH]; intros Hin Hx; [contradiction |].
  simpl. unfold tr_seq. destruct (snd (body x')) eqn:Hx'.
  - cbn [snd]. destruct Hin as [-> | Hin]; [congruence | now apply IH].
  - now rewrite Hx'.
Qed.

(** C8: on a folder that holds a hidden regular file, [scan_folder]
    neither fails on its assertion nor returns a list, whatever else
    the folder holds: the scan hands the file to [os.scandir] and the
    exception of the scan, which is never an [AssertionError], comes
    out of [scan_folder]. So a folder with [a.png] beside [.DS_Store]
    gives no list, and a folder with no image beside [.DS_Store] no
    assertion failure. *)
Theorem scan_folder_hidden_file_raises :
  forall (cwd s : string) (path : pyval) (entries : list (string * node))
         (name : string),
    path = PStr s \/ path = PPath s ->
    In (name, File) entries ->
    hidden name = true ->
    exists e,
      snd (scan_folder cwd path (Dir entries)) = Raise e
      /\ e <> AssertionError.
Proof.
  intros cwd s path entries name Hpath Hin Hh.
  assert (Hscan : exists e,
             snd (_scandir cwd s s (PTuple (map PStr IMG_EXTENSIONS)) true
                    (Dir entries)) = Raised e
             /\ e <> AssertionError).
  { destruct (snd (_scandir cwd s s (PTuple (map PStr IMG_EXTENSIONS)) true
                     (Dir entries))) as [| e] eqn:Hout.
    - exfalso. revert Hout. rewrite _scandir_Dir, tr_seq_event. cbn [snd].
      destruct (s =? ""); [discriminate |].
      apply (for_each_not_done _ entries (name, File) Hin).
      unfold scan_entry. cbn [fst snd]. rewrite Hh. cbn [negb andb].
      rewrite _scandir_File. discriminate.
    - exists e. split; [reflexivity |]. intros ->.
      now apply _scandir_never_asserts in Hout. }
  destruct Hscan as [e [Hout He]]. exists e. split; [| exact He].
  destruct Hpath as [-> | ->]; unfold scan_folder;
    rewrite scandir_suffix_check;
    cbn [is_None is_str_or_tuple orb snd]; unfold list_of;
    now rewrite Hout.
Qed.

Lemma scan_folder_hidden_file_raises_witness :
  exists e,
    snd (scan_folder "/" (PStr "/home/u/Desktop") (Dir desktop_entries))
    = Raise e
    /\ e <> AssertionError.
Proof.
  apply (scan_folder_hidden_file_raises "/" "/home/u/Desktop"
           (PStr "/home/u/Desktop") desktop_entries ".DS_Store").
  - left. reflexivity.
  - simpl. auto.
  - reflexivity.
Defined.

(** With an image beside the hidden file, and with none. *)
Example scan_folder_desktop :
  scan_folder "/" (PStr "/home/u/Desktop") (Dir desktop_entries)
  = (["/home/u/Desktop"; "/home/u/Desktop/.DS_Store"],
     Raise NotADirectoryError)
  /\ scan_folder "/" (PStr "/home/u/Desktop")
       (Dir [("notes.txt", File); (".DS_Store", File)])
     = (["/home/u/Desktop"; "/home/u/Desktop/.DS_Store"],
        Raise NotADirectoryError).
Proof. split; reflexivity. Qed.

(* ================================================================= *)
(** * Entries that are neither files nor listable directories *)

(** Without recursion such an entry is passed over like a directory;
    with recursion the scan hands it to [os.scandir] and ends with its
    error. *)
Example scandir_broken_link :
  _scandir "/" "/data/imgs" "/data/imgs" PNone false
    (Dir broken_link_entries)
  = ([EvScandir "/data/imgs"; EvYield "a.png"], Done)
  /\ _scandir "/" "/data/imgs" "/data/imgs" PNone true
       (Dir broken_link_entries)
     = ([EvScandir "/data/imgs"; EvYield "a.png";
         EvScandir "/data/imgs/latest"], Raised FileNotFoundError).
Proof. split; reflexivity. Qed.

Section FlatScan.

Variable cwd : string.
Hypothesis cwd_absolute : startswith cwd "/" = true.

Variable root : string.
Hypothesis root_nonempty : root <> "".

Variable suffix : pyval.
Hypothesis suffix_typed : typed_suffix suffix = true.


End FlatScan.



Section OrderFacts.




End OrderFacts.



Section JoinFacts.

(** Joining names one after the other onto a path that does not end
    with a separator. *)
Lemma fold_join_names (rest : list string) :
  forall acc,
    acc <> "" -> endswith acc "/" = false ->
    Forall (fun c => valid_name c = true) rest ->
    fold_left os_path_join rest acc
    = match rest with
      | [] => acc
      | _ :: _ => acc ++ String slash (String.concat "/" rest)
      end.
Proof.
  induction rest as [| x rest IH]; intros acc Hne He Hrest; [reflexivity |].
  inversion Hrest as [| ? ? Hx Hrest']; subst. simpl fold_left.
  rewrite IH;
    [ | now apply os_path_join_name_nonempty
      | now apply os_path_join_name_endswith
      | assumption ].
  rewrite (os_path_join_if acc x (valid_name_not_absolute x Hx) Hne), He.
  destruct rest as [| y rest]; [reflexivity |].
  change (String.concat "/" (x :: y :: rest))
    with (x ++ String slash (String.concat "/" (y :: rest))).
  change (acc ++ String slash x) with (acc ++ ("/" ++ x)).
  change (String slash (x ++ ?r)) with ("/" ++ (x ++ r)).
  now rewrite !append_assoc.
Qed.

(** Joining a relative path written from names back onto the root
    gives the path reached by joining the names one by one, which is
    the [entry.path] of the entry. *)
Lemma os_path_join_concat (s : string) (p : list string) :
  p <> [] -> Forall (fun c => valid_name c = true) p ->
  os_path_join s (String.concat "/" p) = os_path_join_all s p.
Proof.
  intros Hne Hall. destruct p as [| c rest]; [contradiction |].
  destruct (String.eqb_spec s "") as [-> | Hs].
  - rewrite os_path_join_empty. unfold os_path_join_all. simpl fold_left.
    rewrite os_path_join_empty.
    symmetry. exact (os_path_join_all_names c rest Hall).
  - pose proof (concat_names_relative (c :: rest) Hne Hall) as Hrel.
    rewrite (os_path_join_if s _ Hrel Hs).
    inversion Hall as [| ? ? Hc Hrest]; subst.
    unfold os_path_join_all. simpl fold_left.
    rewrite fold_join_names;
      [ | now apply os_path_join_name_nonempty
        | now apply os_path_join_name_endswith
        | assumption ].
    rewrite (os_path_join_if s c (valid_name_not_absolute c Hc) Hs).
    destruct rest as [| y rest]; [reflexivity |].
    change (String.concat "/" (c :: y :: rest))
      with (c ++ String slash (String.concat "/" (y :: rest))).
    destruct (endswith s "/").
    + now rewrite append_assoc.
    + change (s ++ String slash c) with (s ++ ("/" ++ c)).
      change (String slash (c ++ ?r)) with ("/" ++ (c ++ r)).
      now rewrite !append_assoc.
Qed.

(** [os.path.join(a, v)] ends with [v] when [v] is relative. *)
Lemma os_path_join_ends (a v : string) :
  startswith v "/" = false -> exists pre, os_path_join a v = pre ++ v.
Proof.
  intros Hv. unfold os_path_join. rewrite Hv.
  destruct ((a =? "") || endswith a "/"); [now exists a |].
  exists (a ++ "/"). now rewrite append_assoc.
Qed.

End JoinFacts.

(** X5: every path [scan_folder] returns is the path of a regular file
    of the tree, obtained by joining onto [path] the names that lead
    to the file; the file's own name is not hidden, and the path ends
    with one of the image suffixes. *)
Theorem scan_folder_samples :
  forall (cwd s : string) (path : pyval) (fs : node)
         (samples : list string) (sample : string),
    startswith cwd "/" = true ->
    wf_tree fs = true ->
    path = PStr s \/ path = PPath s ->
    snd (scan_folder cwd path fs) = Ok samples ->
    In sample samples ->
    exists p,
      In p (files_under fs) /\ p <> []
      /\ hidden (basename p) = false
      /\ sample = os_path_join_all s p
      /\ exists ext x, In ext IMG_EXTENSIONS /\ sample = x ++ ext.
Proof.
  intros cwd s path fs samples sample Hcwd Hwf Hpath Hok Hin.
  assert (Hmap : exists found,
             list_of (_scandir cwd s s (PTuple (map PStr IMG_EXTENSIONS))
                        true fs) = Ok found
             /\ samples = map (os_path_join s) found).
  { destruct Hpath as [-> | ->]; unfold scan_folder in Hok;
      rewrite scandir_suffix_check in Hok;
      cbn [is_None is_str_or_tuple orb snd] in Hok;
      destruct (list_of _) as [found |]; cbn [bind] in Hok;
      try discriminate Hok; exists found; (split; [reflexivity |]);
      destruct (map (os_path_join s) found) eqn:Hm; congruence. }
  destruct Hmap as [found [Hfound ->]].
  apply in_map_iff in Hin. destruct Hin as [v [<- Hv]].
  unfold list_of in Hfound.
  destruct (snd (_scandir cwd s s _ true fs)); [| discriminate].
  injection Hfound as <-.
  destruct (_scandir_yields_sound cwd Hcwd s _ true fs [] v Hwf
              (Forall_nil _) Hv) as [p [Hp [Hne [Hh [Hy Hpass]]]]].
  simpl app in Hy.
  pose proof (files_under_valid fs Hwf p Hp) as Hvalid.
  exists p. repeat split; try assumption.
  - rewrite Hy. now apply os_path_join_concat.
  - destruct Hpass as [Hnone | Hends]; [discriminate |].
    cbn [str_endswith] in Hends. apply endswith_any_true in Hends.
    destruct Hends as [ext [Hext Hends]].
    change (In (PStr ext) (map PStr IMG_EXTENSIONS)) in Hext.
    apply in_map_iff in Hext. destruct Hext as [ext' [Heq Hext]].
    injection Heq as ->. apply endswith_iff in Hends.
    destruct Hends as [x Hx].
    destruct (os_path_join_ends s v) as [pre Hpre].
    { rewrite Hy. now apply concat_names_relative. }
    exists ext, (pre ++ x). split; [exact Hext |].
    now rewrite Hpre, Hx, append_assoc.
Qed.

Lemma scan_folder_samples_witness :
  exists p,
    In p (files_under (Dir gallery_entries)) /\ p <> []
    /\ hidden (basename p) = false
    /\ "/data/imgs/sub/deep/e.bmp" = os_path_join_all "/data/imgs" p
    /\ exists ext x,
         In ext IMG_EXTENSIONS /\ "/data/imgs/sub/deep/e.bmp" = x ++ ext.
Proof.
  apply (scan_folder_samples "/" "/data/imgs" (PStr "/data/imgs")
           (Dir gallery_entries)
           ["/data/imgs/a.png"; "/data/imgs/sub/c.jpg";
            "/data/imgs/sub/deep/e.bmp"]
           "/data/imgs/sub/deep/e.bmp").
  - reflexivity.
  - reflexivity.
  - left. reflexivity.
  - reflexivity.
  - simpl. auto.
Defined.

Section OpenedFacts.

Variable cwd : string.
Hypothesis cwd_absolute : startswith cwd "/" = true.

Variable root : string.

Variable suffix : pyval.
Hypothesis suffix_typed : typed_suffix suffix = true.

Lemma for_each_opened_done {A : Type} (body : A -> trace)
    (f : A -> list string) (l : list A) :
  (forall x, In x l ->
             snd (body x) = Done /\ opened (fst (body x)) = f x) ->
  opened (fst (for_each body l)) = flat_map f l.
Proof.
  induction l as [| x l IH]; intros Hall; [reflexivity |].
  destruct (Hall x (or_introl eq_refl)) as [Hdone Hopened].
  simpl. unfold tr_seq. rewrite Hdone. simpl.
  rewrite opened_app, Hopened, IH; [reflexivity |].
  intros x' Hx'. apply Hall. now right.
Qed.

Lemma map_over_flat_map {A B C : Type} (g : B -> C) (h : A -> list B)
    (l : list A) :
  map g (flat_map h l) = flat_map (fun x => map g (h x)) l.
Proof.
  induction l as [| x l IH]; [reflexivity |].
  simpl. now rewrite map_app, IH.
Qed.

(** The directories the recursive scan opens in a tree made of
    regular files and listable directories only, none of the files
    hidden. *)
Lemma _scandir_recursive_opened (n : node) :
  forall cs entries,
    n = Dir entries ->
    wf_tree n = true ->
    no_hidden_file n = true ->
    all_listable n = true ->
    Forall (fun c => valid_name c = true) cs ->
    os_path_join_all root cs <> "" ->
    opened (fst (_scandir cwd root (os_path_join_all root cs) suffix true n))
    = map (fun p => os_path_join_all root (cs ++ p)) (dirs_under n).
Proof.
  induction n as [| entries0 IH | why] using node_ind';
    intros cs entries Hn Hwf Hnh Hls Hcs Hdir;
    [discriminate | | discriminate].
  clear Hn entries. rename entries0 into entries.
  rewrite _scandir_Dir, tr_seq_event. cbn [fst opened].
  pose proof Hdir as Hdirb. apply String.eqb_neq in Hdirb. rewrite Hdirb.
  cbn [dirs_under map]. rewrite app_nil_r. f_equal.
  rewrite map_over_flat_map.
  apply for_each_opened_done. intros entry Hin.
  destruct (wf_tree_entry entries entry Hwf Hin) as [Hname Hsub].
  destruct (no_hidden_file_entry entries entry Hnh Hin) as [Hh Hnhsub].
  pose proof (all_listable_entry entries entry Hls Hin) as Hlsub.
  rewrite (scan_entry_under_root cwd cwd_absolute root suffix cs)
    by assumption.
  cbv zeta.
  destruct (snd entry) as [| sub | why] eqn:Hentry;
    [ | | discriminate Hlsub].
  - cbn [is_file] in Hh |- *. rewrite andb_true_r in Hh |- *.
    rewrite Hh. cbn [negb dirs_under map].
    destruct (is_None suffix) eqn:Hnone; [split; reflexivity |].
    rewrite (str_endswith_typed suffix suffix_typed _ Hnone).
    destruct (passes suffix _); split; reflexivity.
  - cbn [is_file]. rewrite andb_false_r.
    rewrite Forall_forall in IH. specialize (IH entry Hin).
    rewrite Hentry in IH. rewrite os_path_join_all_snoc.
    assert (Hcs' : Forall (fun c => valid_name c = true) (cs ++ [fst entry]))
      by (apply Forall_app; split; [assumption | now constructor]).
    assert (Hdir' : os_path_join_all root (cs ++ [fst entry]) <> "")
      by (rewrite <- os_path_join_all_snoc;
          now apply os_path_join_name_nonempty).
    split.
    + exact (proj1 (_scandir_recursive_complete cwd cwd_absolute root suffix
                      suffix_typed (Dir sub) (cs ++ [fst entry]) sub eq_refl
                      Hsub Hnhsub Hlsub Hcs' Hdir')).
    + rewrite (IH (cs ++ [fst entry])%list sub eq_refl Hsub Hnhsub Hlsub
                 Hcs' Hdir').
      rewrite map_map. apply map_ext. intros p. now rewrite <- app_assoc.
Qed.

End OpenedFacts.

(** X6: under a filter that is absent, a string or a tuple of strings,
    on a tree made of regular files and listable directories only (no
    dangling link, FIFO, socket, device or unreadable directory), none
    of the files hidden, the recursive scan calls [os.scandir] once on
    every directory of the tree, hidden directories included, a
    directory before the directories inside it, and on nothing else. *)
Theorem scandir_recursive_opens_every_directory :
  forall (cwd s : string) (suffix : pyval) (entries : list (string * node)),
    startswith cwd "/" = true ->
    s <> "" ->
    typed_suffix suffix = true ->
    wf_tree (Dir entries) = true ->
    no_hidden_file (Dir entries) = true ->
    all_listable (Dir entries) = true ->
    opened (fst (_scandir cwd s s suffix true (Dir entries)))
    = map (os_path_join_all s) (dirs_under (Dir entries)).
Proof.
  intros cwd s suffix entries Hcwd Hs Htyped Hwf Hnh Hls.
  exact (_scandir_recursive_opened cwd Hcwd s suffix Htyped (Dir entries)
           [] entries eq_refl Hwf Hnh Hls (Forall_nil _) Hs).
Qed.

Lemma scandir_recursive_opens_every_directory_witness :
  opened (fst (_scandir "/" "/data/imgs" "/data/imgs" (PStr ".png") true
                 (Dir project_entries)))
  = map (os_path_join_all "/data/imgs") (dirs_under (Dir project_entries)).
Proof.
  apply (scandir_recursive_opens_every_directory "/" "/data/imgs"
           (PStr ".png") project_entries).
  - reflexivity.
  - discriminate.
  - reflexivity.
  - reflexivity.
  - reflexivity.
  - reflexivity.
Defined.

Example scandir_recursive_project :
  _scandir "/" "/data/imgs" "/data/imgs" (PStr ".png") true
    (Dir project_entries)
  = ([EvScandir "/data/imgs"; EvScandir "/data/imgs/.cache";
      EvYield ".cache/thumb.png"; EvScandir "/data/imgs/raw"], Done).
Proof. reflexivity. Qed.

(* ================================================================= *)
(** * Witnesses of the scan lemmas *)

Lemma scandir_never_yields_hidden_name_witness :
  exists p,
    In p (files_under (Dir checkout_entries))
    /\ ".git/x.png" = String.concat "/" p
    /\ hidden (basename p) = false.
Proof.
  apply (scandir_never_yields_hidden_name "/" "/repo" PNone true
           (Dir checkout_entries) ".git/x.png").
  - reflexivity.
  - reflexivity.
  - simpl. auto.
Defined.

Lemma scandir_recursive_hidden_file_raises_witness :
  snd (_scandir "/" "/data/imgs" "/data/imgs" (PStr ".png") true
         (Dir scenario_entries)) <> Done.
Proof.
  apply (scandir_recursive_hidden_file_raises "/" "/data/imgs" (PStr ".png")
           scenario_entries ".hidden.png").
  - simpl. auto.
  - reflexivity.
Defined.

Lemma scandir_recursive_complete_witness :
  snd (_scandir "/" "/data/imgs" "/data/imgs" PNone true
         (Dir gallery_entries)) = Done
  /\ yields (fst (_scandir "/" "/data/imgs" "/data/imgs" PNone true
                    (Dir gallery_entries)))
     = map (String.concat "/") (files_under (Dir gallery_entries))
  /\ (unique_names (Dir gallery_entries) = true ->
      NoDup (yields (fst (_scandir "/" "/data/imgs" "/data/imgs" PNone true
                            (Dir gallery_entries))))).
Proof.
  apply (scandir_recursive_complete "/" "/data/imgs" gallery_entries).
  - reflexivity.
  - discriminate.
  - reflexivity.
  - reflexivity.
  - reflexivity.
Defined.

Lemma scan_folder_on_tree_witness :
  snd (scan_folder "/" (PPath "/data/imgs") (Dir project_entries))
  = match filter (passes (PTuple (map PStr IMG_EXTENSIONS)))
            (map (String.concat "/") (files_under (Dir project_entries)))
    with
    | [] => Raise AssertionError
    | v :: found =>
        Ok (os_path_join "/data/imgs" v
              :: map (os_path_join "/data/imgs") found)
    end.
Proof.
  apply (scan_folder_on_tree "/" "/data/imgs" (PPath "/data/imgs")
           project_entries).
  - reflexivity.
  - discriminate.
  - right. reflexivity.
  - reflexivity.
  - reflexivity.
  - reflexivity.
Defined.

Example scan_folder_project :
  scan_folder "/" (PPath "/data/imgs") (Dir project_entries)
  = (["/data/imgs"; "/data/imgs/.cache"; "/data/imgs/raw"],
     Ok ["/data/imgs/b.jpg"; "/data/imgs/.cache/thumb.png";
         "/data/imgs/raw/d.PNG"]).
Proof. reflexivity. Qed.

(* ================================================================= *)
(** * Further properties of BaseDataset *)

(** X11: on a dataset with [N] annotations [__len__] returns [N], and
    [__getitem__] returns a sample exactly for the indices from [-N]
    up to [N - 1]; any other integer raises [IndexError]. *)
Theorem getitem_index_range :
  forall (Data : Type) (ds : BaseDataset Data) (anns : list Data) (i : Z),
    annotations ds = Value anns ->
    __len__ ds = Ok (Z.of_nat (length anns))
    /\ ((exists d, __getitem__ ds i = Ok d)
        <-> (- Z.of_nat (length anns) <= i < Z.of_nat (length anns))%Z)
    /\ (~ (- Z.of_nat (length anns) <= i < Z.of_nat (length anns))%Z ->
        __getitem__ ds i = Raise IndexError).
Proof.
  intros Data ds anns i Hanns.
  assert (Hout : ~ (- Z.of_nat (length anns) <= i < Z.of_nat (length anns))%Z
                 -> __getitem__ ds i = Raise IndexError).
  { intros Hrange. rewrite (getitem_unfold ds anns i Hanns).
    rewrite list_getitem_out_of_range by lia. reflexivity. }
  split; [| split; [split |]].
  - unfold __len__. now rewrite Hanns.
  - intros [d Hd].
    destruct (Z_le_dec (- Z.of_nat (length anns)) i) as [Hlo | Hlo];
      [destruct (Z_lt_dec i (Z.of_nat (length anns))) as [Hhi | Hhi] |];
      [lia | |]; rewrite Hout in Hd by lia; discriminate Hd.
  - intros Hrange. rewrite (getitem_unfold ds anns i Hanns).
    destruct (Z_lt_dec i 0) as [Hneg | Hpos].
    + rewrite (list_getitem_negative anns i) by lia.
      destruct (list_getitem_nonneg anns (Z.of_nat (length anns) + i))
        as [a [_ ->]]; [lia |]. simpl. eauto.
    + destruct (list_getitem_nonneg anns i) as [a [_ ->]]; [lia |].
      simpl. eauto.
  - exact Hout.
Qed.

Lemma getitem_index_range_witness :
  __len__ example_dataset = Ok (Z.of_nat (length [10; 20; 30]%Z))
  /\ ((exists d, __getitem__ example_dataset 3 = Ok d)
      <-> (- Z.of_nat (length [10; 20; 30]%Z) <= 3
           < Z.of_nat (length [10; 20; 30]%Z))%Z)
  /\ (~ (- Z.of_nat (length [10; 20; 30]%Z) <= 3
         < Z.of_nat (length [10; 20; 30]%Z))%Z ->
      __getitem__ example_dataset 3 = Raise IndexError).
Proof.
  apply (getitem_index_range Z example_dataset [10; 20; 30]%Z 3%Z).
  reflexivity.
Defined.

(** X12: a dataset whose annotations were never populated cannot be
    indexed or measured: straight after the constructor both
    [__getitem__] and [__len__] raise [AttributeError], and after the
    base [load_annotations], which stores [None], both raise
    [TypeError], whatever the pipelines and the index. *)
Theorem getitem_before_annotations :
  forall (Data Config : Type) (bl bt : list Config -> Pipeline Data)
         (lc tc : option (list Config)) (i : Z),
    __getitem__ (__init__ bl bt lc tc) i = Raise AttributeError
    /\ __len__ (__init__ bl bt lc tc) = Raise AttributeError
    /\ __getitem__ (load_annotations (__init__ bl bt lc tc)) i
       = Raise TypeError
    /\ __len__ (load_annotations (__init__ bl bt lc tc)) = Raise TypeError.
Proof. intros. repeat split; reflexivity. Qed.

(** X13: a dataset constructed with one configuration only applies
    only that pipeline, built by the builder of its kind: with a load
    configuration alone [__getitem__] returns
    [build_load_pipeline(cfg)(annotations[i])], with a transforms
    configuration alone [build_transforms(cfg)(annotations[i])]. *)
Theorem getitem_single_pipeline :
  forall (Data Config : Type) (bl bt : list Config -> Pipeline Data)
         (c : Config) (cs : list Config) (off : option (list Config))
         (anns : list Data) (i : Z),
    config_truthy off = false ->
    (0 <= i < Z.of_nat (length anns))%Z ->
    exists a,
      nth_error anns (Z.to_nat i) = Some a
      /\ (pipeline_truthy (bl (c :: cs)) = true ->
          __getitem__
            (set_annotations (__init__ bl bt (Some (c :: cs)) off)
               (Value anns)) i
          = Ok (pipeline_call (bl (c :: cs)) a))
      /\ (pipeline_truthy (bt (c :: cs)) = true ->
          __getitem__
            (set_annotations (__init__ bl bt off (Some (c :: cs)))
               (Value anns)) i
          = Ok (pipeline_call (bt (c :: cs)) a)).
Proof.
  intros Data Config bl bt c cs off anns i Hoff Hi.
  destruct (list_getitem_nonneg anns i Hi) as [a [Hnth Hget]].
  exists a. split; [exact Hnth |]. split; intros Htruthy.
  - rewrite (getitem_unfold
               (set_annotations (__init__ bl bt (Some (c :: cs)) off)
                  (Value anns)) anns i eq_refl), Hget.
    unfold __init__. simpl. rewrite Hoff, Htruthy. reflexivity.
  - rewrite (getitem_unfold
               (set_annotations (__init__ bl bt off (Some (c :: cs)))
                  (Value anns)) anns i eq_refl), Hget.
    unfold __init__. simpl. rewrite Hoff, Htruthy. reflexivity.
Qed.

Lemma getitem_single_pipeline_witness :
  exists a,
    nth_error [10; 20; 30]%Z (Z.to_nat 1) = Some a
    /\ (pipeline_truthy (example_build_load [tt]) = true ->
        __getitem__
          (set_annotations
             (__init__ example_build_load example_build_transforms
                (Some [tt]) None)
             (Value [10; 20; 30]%Z)) 1
        = Ok (pipeline_call (example_build_load [tt]) a))
    /\ (pipeline_truthy (example_build_transforms [tt]) = true ->
        __getitem__
          (set_annotations
             (__init__ example_build_load example_build_transforms
                None (Some [tt]))
             (Value [10; 20; 30]%Z)) 1
        = Ok (pipeline_call (example_build_transforms [tt]) a)).
Proof.
  apply (getitem_single_pipeline Z unit example_build_load
           example_build_transforms tt [] None [10; 20; 30]%Z 1%Z).
  - reflexivity.
  - simpl. lia.
Defined.

(* ================================================================= *)
(** * A tuple filter with an element that is not a string *)

Lemma endswith_any_not_str (y : string) (strs : list string) (bad : pyval)
    (tail : list pyval) :
  Forall (fun p => endswith y p = false) strs ->
  is_str bad = false ->
  endswith_any y (map PStr strs ++ bad :: tail) = Raise TypeError.
Proof.
  intros Hstrs Hbad. induction Hstrs as [| p strs Hp _ IH].
  - destruct bad; try reflexivity. discriminate Hbad.
  - simpl. now rewrite Hp.
Qed.

(** X14: the call checks a tuple filter by its type only. A tuple that
    holds an element that is not a string is accepted, and the
    [TypeError] arises while the generator is consumed, at the first
    visible regular file whose path none of the strings before that
    element ends: here the first entry, before anything is yielded. *)
Theorem scandir_tuple_checked_lazily :
  forall (cwd s : string) (strs : list string) (bad : pyval)
         (tail : list pyval) (name : string) (rest : list (string * node))
         (recursive : bool),
    startswith cwd "/" = true ->
    s <> "" ->
    valid_name name = true ->
    hidden name = false ->
    is_str bad = false ->
    Forall (fun p => endswith name p = false) strs ->
    exists g,
      scandir cwd (PStr s) (PTuple (map PStr strs ++ bad :: tail)) recursive
      = Ok g
      /\ g (Dir ((name, File) :: rest)) = ([EvScandir s], Raised TypeError).
Proof.
  intros cwd s strs bad tail name rest recursive Hcwd Hs Hname Hh Hbad Hstrs.
  exists (_scandir cwd s s (PTuple (map PStr strs ++ bad :: tail)) recursive).
  split; [reflexivity |].
  assert (Hbody : forall descend,
             scan_entry cwd s s (PTuple (map PStr strs ++ bad :: tail))
               recursive name File descend
             = tr_raise TypeError).
  { intros descend. change s with (os_path_join_all s []) at 2.
    rewrite (scan_entry_under_root cwd Hcwd s _ [] recursive name File _
               (Forall_nil _) Hname).
    cbv zeta. rewrite Hh.
    cbn [negb is_file andb is_None app String.concat str_endswith].
    now rewrite (endswith_any_not_str name strs bad tail Hstrs Hbad). }
  rewrite _scandir_Dir, tr_seq_event.
  apply String.eqb_neq in Hs. rewrite Hs. cbn [for_each fst snd].
  rewrite Hbody. reflexivity.
Qed.

Lemma scandir_tuple_checked_lazily_witness :
  exists g,
    scandir "/" (PStr "/data/imgs")
      (PTuple (map PStr [".png"; ".bmp"] ++ PInt 3 :: [PStr ".jpg"])) true
    = Ok g
    /\ g (Dir (("b.jpg", File) :: [("a.png", File)]))
       = ([EvScandir "/data/imgs"], Raised TypeError).
Proof.
  apply (scandir_tuple_checked_lazily "/" "/data/imgs" [".png"; ".bmp"]
           (PInt 3) [PStr ".jpg"] "b.jpg" [("a.png", File)] true).
  - reflexivity.
  - discriminate.
  - reflexivity.
  - reflexivity.
  - reflexivity.
  - repeat constructor.
Defined.

(** With the matching string before the bad element the same file is
    yielded, and the error waits for the next file. *)
Example scandir_tuple_match_first :
  _scandir "/" "/data/imgs" "/data/imgs"
    (PTuple [PStr ".jpg"; PInt 3]) false
    (Dir [("b.jpg", File); ("a.png", File)])
  = ([EvScandir "/data/imgs"; EvYield "b.jpg"], Raised TypeError).
Proof. reflexivity. Qed.
